(** * Session and token lifecycle of the ezapi front end

    A shallow embedding of the client-side session manager:
    - [lib/cookies.ts]: the cookie-backed token store and the token
      inspector ([decodeJWTPayload], [isTokenExpiredOrExpiringSoon],
      [isRefreshTokenValid]);
    - [lib/stores/auth.ts]: the Zustand store ([checkAuth], [clearAuth]);
    - [lib/api/client.ts]: [ApiClient.request], [ensureValidToken],
      [login], [register], [refreshToken];
    - [lib/hooks/auth.ts]: the periodic [validateTokens] watchdog.

    JavaScript runs one turn at a time: a turn is the synchronous code
    between two [await]s.  The asynchronous functions are therefore given
    as a transition system whose states hold the suspended activations
    (one constructor per [await] of the source) and whose transitions are
    the turns. *)

From Stdlib Require Import ZArith String Ascii List Bool Lia.
From stdpp Require Import base option gmap strings list fin_maps.

Local Open Scope string_scope.
Local Open Scope Z_scope.

Set Default Proof Using "Type*".
Set Warnings "-register-all".

(** ** JavaScript values received from the outside *)

(** A parsed JSON document.  Numbers are integers: the only numbers the
    code inspects are [exp] claims, which are seconds since the epoch. *)
Inductive json : Type :=
| JNull
| JBool (b : bool)
| JNum (n : Z)
| JStr (s : string)
| JArr (items : list json)
| JObj (fields : list (string * json)).

(** [!!v] in JavaScript. *)
Definition truthy (v : json) : bool :=
  match v with
  | JNull => false
  | JBool b => b
  | JNum n => negb (n =? 0)
  | JStr s => negb (String.eqb s "")
  | JArr _ | JObj _ => true
  end.

Fixpoint assoc (k : string) (fields : list (string * json)) : option json :=
  match fields with
  | [] => None
  | (k', v) :: rest => if String.eqb k k' then Some v else assoc k rest
  end.

(** [v.k] for a value [v] that is neither [null] nor [undefined];
    [None] is [undefined].  Only own data properties of parsed objects
    are looked up ([k] is never [length] here). *)
Definition get_prop (v : json) (k : string) : option json :=
  match v with
  | JObj fields => assoc k fields
  | _ => None
  end.

(** The built-ins of the host the code calls.  Each returns [None] where
    the built-in throws; [ToNumber] returns [None] for NaN. *)
Class JsRuntime := {
  atob : string -> option string;
  decodeURIComponent : string -> option string;
  JSON_parse : string -> option json;
  ToNumber : json -> option Z;
}.

Section WithRuntime.
Context {rt : JsRuntime}.

(** The abstract operation ToNumber: fixed on numbers, booleans, [null]
    and the empty string, left to the host on other strings and on
    objects. *)
Definition to_number (v : json) : option Z :=
  match v with
  | JNum n => Some n
  | JBool b => Some (if b then 1 else 0)
  | JNull => Some 0
  | JStr s => if String.eqb s "" then Some 0 else ToNumber v
  | _ => ToNumber v
  end.

(** [v <= n] and [v > n] against a number [n]; a comparison with NaN is
    false. *)
Definition js_le (v : json) (n : Z) : bool :=
  match to_number v with Some x => x <=? n | None => false end.

Definition js_gt (v : json) (n : Z) : bool :=
  match to_number v with Some x => n <? x | None => false end.

End WithRuntime.

(** ** lib/cookies.ts *)

Module Cookies.

Definition AUTH_TOKEN_COOKIE : string := "auth_token".
Definition REFRESH_TOKEN_COOKIE : string := "refresh_token".

(** A stored cookie: its value and the instant (epoch milliseconds) at
    which the browser drops it. *)
Record cookie := { cookie_value : string; cookie_expires : Z }.

(** [getCookie], [setCookie] with a [maxAge] in seconds, and
    [deleteCookie] of cookies-next, on the jar of the document. *)
Definition getCookie (name : string) (jar : gmap string cookie) (now : Z)
  : option string :=
  match jar !! name with
  | Some c => if now <? cookie_expires c then Some (cookie_value c) else None
  | None => None
  end.

Definition setCookie (name value : string) (maxAge : Z)
    (jar : gmap string cookie) (now : Z) : gmap string cookie :=
  <[name := {| cookie_value := value; cookie_expires := now + maxAge * 1000 |}]> jar.

Definition deleteCookie (name : string) (jar : gmap string cookie)
  : gmap string cookie :=
  delete name jar.

Definition getAuthToken (jar : gmap string cookie) (now : Z) : option string :=
  getCookie AUTH_TOKEN_COOKIE jar now.

Definition setAuthToken (token : string) (jar : gmap string cookie) (now : Z)
  : gmap string cookie :=
  setCookie AUTH_TOKEN_COOKIE token (60 * 15) jar now.

Definition getRefreshToken (jar : gmap string cookie) (now : Z) : option string :=
  getCookie REFRESH_TOKEN_COOKIE jar now.

Definition setRefreshToken (token : string) (jar : gmap string cookie) (now : Z)
  : gmap string cookie :=
  setCookie REFRESH_TOKEN_COOKIE token (60 * 60 * 24 * 90) jar now.

Definition removeAuthTokens (jar : gmap string cookie) : gmap string cookie :=
  deleteCookie REFRESH_TOKEN_COOKIE (deleteCookie AUTH_TOKEN_COOKIE jar).

(** [token.split(".")]. *)
Fixpoint split_dot (s : string) : list string :=
  match s with
  | EmptyString => [EmptyString]
  | String c rest =>
      if Ascii.eqb c "."%char then EmptyString :: split_dot rest
      else
        match split_dot rest with
        | seg :: segs => String c seg :: segs
        | [] => [String c EmptyString]
        end
  end.

(** [.replace(/-/g, "+").replace(/_/g, "/")]. *)
Fixpoint base64url_to_base64 (s : string) : string :=
  match s with
  | EmptyString => EmptyString
  | String c rest =>
      let c' := if Ascii.eqb c "-"%char then "+"%char
                else if Ascii.eqb c "_"%char then "/"%char else c in
      String c' (base64url_to_base64 rest)
  end.

Definition hex_digit (n : nat) : ascii :=
  match n with
  | 0 => "0" | 1 => "1" | 2 => "2" | 3 => "3" | 4 => "4" | 5 => "5"
  | 6 => "6" | 7 => "7" | 8 => "8" | 9 => "9" | 10 => "a" | 11 => "b"
  | 12 => "c" | 13 => "d" | 14 => "e" | _ => "f"
  end%nat%char.

(** ["%" + ("00" + c.charCodeAt(0).toString(16)).slice(-2)] for one
    character of the output of [atob], whose code is below 256. *)
Definition percent_encode_char (c : ascii) : string :=
  let n := nat_of_ascii c in
  String "%"%char
    (String (hex_digit (n / 16)%nat)
       (String (hex_digit (n mod 16)%nat) EmptyString)).

Fixpoint percent_encode (s : string) : string :=
  match s with
  | EmptyString => EmptyString
  | String c rest => (percent_encode_char c ++ percent_encode rest)%string
  end.

Section WithRuntime.
Context {rt : JsRuntime}.

(** [decodeJWTPayload]: every exception of the body is caught and turned
    into [null].  A token without a second segment makes [base64Url]
    undefined, and [.replace] on it throws. *)
Definition decodeJWTPayload (token : string) : json :=
  match nth_error (split_dot token) 1 with
  | None => JNull
  | Some base64Url =>
      let base64 := base64url_to_base64 base64Url in
      match atob base64 with
      | None => JNull
      | Some bin =>
          match decodeURIComponent (percent_encode bin) with
          | None => JNull
          | Some jsonPayload =>
              match JSON_parse jsonPayload with
              | None => JNull
              | Some payload => payload
              end
          end
      end
  end.

(** [Math.floor(Date.now() / 1000)]. *)
Definition currentTime (now : Z) : Z := now / 1000.

(** [!payload || !payload.exp], and the claim when the test passes. *)
Definition exp_claim (payload : json) : option json :=
  if negb (truthy payload) then None
  else
    match get_prop payload "exp" with
    | None => None
    | Some e => if negb (truthy e) then None else Some e
    end.

Definition isTokenExpiredOrExpiringSoon (token : option string) (now : Z) : bool :=
  match token with
  | None => true
  | Some t =>
      if String.eqb t "" then true
      else
        match exp_claim (decodeJWTPayload t) with
        | None => true
        | Some e =>
            let bufferTime := 2 * 60 in
            js_le e (currentTime now + bufferTime)
        end
  end.

Definition isRefreshTokenValid (jar : gmap string cookie) (now : Z) : bool :=
  match getRefreshToken jar now with
  | None => false
  | Some t =>
      if String.eqb t "" then false
      else
        match exp_claim (decodeJWTPayload t) with
        | None => false
        | Some e => js_gt e (currentTime now)
        end
  end.

End WithRuntime.

End Cookies.

(** ** lib/stores/auth.ts *)

Module AuthStore.
Import Cookies.

Record AuthState := {
  user : option json;
  organization : option json;
  isAuthenticated : bool;
  isLoading : bool;
  error : option string;
}.

Definition initial : AuthState :=
  {| user := None; organization := None; isAuthenticated := false;
     isLoading := false; error := None |}.

Definition setAuth (u o : json) (st : AuthState) : AuthState :=
  {| user := Some u; organization := Some o; isAuthenticated := true;
     isLoading := isLoading st; error := None |}.

(** [clearAuth] removes both cookies and resets the store. *)
Definition clearAuth (st : AuthState) (jar : gmap string cookie)
  : AuthState * gmap string cookie :=
  ({| user := None; organization := None; isAuthenticated := false;
      isLoading := isLoading st; error := None |},
   removeAuthTokens jar).

(** [!!token] for a cookie value. *)
Definition present (token : option string) : bool :=
  match token with
  | Some t => negb (String.eqb t "")
  | None => false
  end.

Section WithRuntime.
Context {rt : JsRuntime}.

Definition checkAuth (st : AuthState) (jar : gmap string cookie) (now : Z)
  : bool * (AuthState * gmap string cookie) :=
  let token := getAuthToken jar now in
  let hasValidRefreshToken := isRefreshTokenValid jar now in
  if negb hasValidRefreshToken then
    (false, if isAuthenticated st then clearAuth st jar else (st, jar))
  else
    let isAuthenticated' := present token || hasValidRefreshToken in
    (isAuthenticated',
     if negb isAuthenticated' && isAuthenticated st then clearAuth st jar
     else (st, jar)).

End WithRuntime.

End AuthStore.

(** ** lib/api/types.ts *)

Module ErrorCode.
Definition UNAUTHORIZED : string := "UNAUTHORIZED".
Definition INVALID_TOKEN : string := "INVALID_TOKEN".
Definition TOKEN_EXPIRED : string := "TOKEN_EXPIRED".
Definition NETWORK_ERROR : string := "NETWORK_ERROR".
End ErrorCode.

Module Types.

(** The [error] member of a response envelope. *)
Record ErrorInfo := {
  err_code : string;
  err_message : string;
  err_details : option json;
}.

(** [ApiResponse<T>].  Bodies are taken at their declared type, except
    for [success], which the client tests with [typeof] at run time:
    [None] stands for a member that is missing or not a boolean.  The
    [meta] member is never read. *)
Record ApiResponse (T : Type) := {
  success : option bool;
  data : option T;
  error : option ErrorInfo;
}.
Arguments success {T} _.
Arguments data {T} _.
Arguments error {T} _.

(** The members of [AuthResponse]'s payload that the client reads. *)
Record AuthData := {
  accessToken : string;
  refreshToken : string;
}.

End Types.

(** ** lib/api/client.ts *)

Module ApiClient.
Import Cookies Types.

Record ApiError := {
  code : string;
  message : string;
  statusCode : Z;
  details : option json;
}.

Definition mkError (c m : string) (status : Z) : ApiError :=
  {| code := c; message := m; statusCode := status; details := None |}.

(** What [fetch] and [response.json()] produce for one call. *)
Inductive Body (T : Type) :=
| JsonBody (r : ApiResponse T)
| NotJson (error_message : string).
Arguments JsonBody {T} _.
Arguments NotJson {T} _.

Inductive FetchResult (T : Type) :=
| FetchFailed (error_message : option string)
| Response (status : Z) (statusText : string) (body : Body T).
Arguments FetchFailed {T} _.
Arguments Response {T} _ _ _.

(** [response.ok]. *)
Definition ok (status : Z) : bool := (200 <=? status) && (status <=? 299).

Definition is_auth_endpoint (endpoint : string) : bool :=
  String.eqb endpoint "/auth/refresh" || String.eqb endpoint "/auth/login"
  || String.eqb endpoint "/auth/register".

(** The three ways lines 137-207 of [request] leave the turn in which
    the response arrives. *)
Inductive Handled (T : Type) :=
| Return (r : ApiResponse T)
| Throw (e : ApiError)
| RenewAndRetry.
Arguments Return {T} _.
Arguments Throw {T} _.
Arguments RenewAndRetry {T}.

Definition throw_envelope {T} (err : ErrorInfo) (status : Z) : Handled T :=
  Throw {| code := err_code err; message := err_message err;
           statusCode := status; details := err_details err |}.

Definition handle_response {T} (endpoint : string) (isRetry : bool)
    (res : FetchResult T) : Handled T :=
  match res with
  | FetchFailed (Some m) => Throw (mkError ErrorCode.NETWORK_ERROR m 0)
  | FetchFailed None =>
      Throw (mkError ErrorCode.NETWORK_ERROR "Network error occurred" 0)
  | Response status statusText body =>
      if negb (ok status) then
        match body with
        | NotJson _ =>
            Throw (mkError ErrorCode.NETWORK_ERROR
                     (if String.eqb statusText "" then "Network error occurred"
                      else statusText)
                     status)
        | JsonBody errorResponse =>
            if (status =? 401) && negb isRetry
               && negb (String.eqb endpoint "/auth/refresh")
               && negb (String.eqb endpoint "/auth/login")
               && negb (String.eqb endpoint "/auth/register")
            then RenewAndRetry
            else
              match error errorResponse with
              | Some err => throw_envelope err status
              | None =>
                  Throw (mkError ErrorCode.NETWORK_ERROR
                           "An unexpected error occurred" status)
              end
        end
      else
        match body with
        | NotJson m => Throw (mkError ErrorCode.NETWORK_ERROR m 0)
        | JsonBody jsonResponse =>
            match success jsonResponse with
            | None =>
                Throw (mkError ErrorCode.NETWORK_ERROR
                         "Invalid response format from server" status)
            | Some s =>
                match negb s, error jsonResponse with
                | true, Some err => throw_envelope err status
                | _, _ => Return jsonResponse
                end
            end
        end
  end.

(** *** Promises, activations and the state of the page *)

Definition pid := nat.

(** What a promise is fulfilled with: [ensureValidToken] resolves to
    [undefined], every other asynchronous function here to a response. *)
Inductive value :=
| VVoid
| VResponse (r : ApiResponse AuthData).

Inductive outcome :=
| Fulfilled (v : value)
| Rejected (e : ApiError).

(** A pending promise keeps its reactions in registration order. *)
Inductive promise :=
| Pending (waiters : list pid)
| Settled (o : outcome).

Inductive ReqBody :=
| RefreshBody (refreshTokenValue : string)
| DataBody (payload : string).

Record Options := { method : option string; body : option ReqBody }.

Definition no_options : Options := {| method := None; body := None |}.
Definition post (b : ReqBody) : Options :=
  {| method := Some "POST"; body := Some b |}.

(** One call of [fetch]: the endpoint, the bearer credential of the
    [Authorization] header when there is one, and the options. *)
Record FetchCall := {
  url : string;
  authorization : option string;
  options : Options;
}.

Inductive AuthCall := Login | Register | RefreshToken.

(** A suspended activation of an asynchronous function: one constructor
    per [await] (the line is that of client.ts), holding the locals the
    rest of the function reads. *)
Inductive frame :=
| ReqAwaitPrecheck (endpoint : string) (opts : Options) (isRetry : bool) (evt : pid)
    (* request, line 117: await this.ensureValidToken() *)
| ReqAwaitFetch (endpoint : string) (opts : Options) (isRetry : bool)
    (* request, lines 137-181: await fetch(url, config), response.json() *)
| ReqAwaitRenewal (endpoint : string) (opts : Options) (evt : pid)
    (* request, line 158: await this.ensureValidToken() *)
| ReqAwaitRetry (retry : pid)
    (* request, line 160: return this.request(endpoint, options, true) *)
| EvtAwaitInFlight (p : pid)
    (* ensureValidToken, line 71: await this.refreshPromise *)
| EvtAwaitOwn (p : pid)
    (* ensureValidToken, line 91: await this.refreshPromise *)
| StoreTokensAwait (who : AuthCall) (req : pid).
    (* login 217, register 236, refreshToken 256: await this.request(...) *)

(** The promise a frame waits for; [None] for a frame that waits for the
    network. *)
Definition awaited (f : frame) : option pid :=
  match f with
  | ReqAwaitPrecheck _ _ _ e => Some e
  | ReqAwaitFetch _ _ _ => None
  | ReqAwaitRenewal _ _ e => Some e
  | ReqAwaitRetry r => Some r
  | EvtAwaitInFlight p => Some p
  | EvtAwaitOwn p => Some p
  | StoreTokensAwait _ r => Some r
  end.

Record World := {
  isRefreshing : bool;               (* ApiClient.isRefreshing *)
  refreshPromise : option pid;       (* ApiClient.refreshPromise *)
  jar : gmap string cookie;          (* document.cookie *)
  now : Z;                           (* Date.now() *)
  store : AuthStore.AuthState;       (* useAuthStore *)
  promises : gmap pid promise;
  frames : gmap pid frame;           (* suspended activations, by own promise *)
  microtasks : list pid;             (* activations ready to go on, oldest first *)
  next_pid : pid;
  sent : list FetchCall;             (* calls of fetch so far, oldest first *)
}.

Definition initial (jar0 : gmap string cookie) (now0 : Z)
    (store0 : AuthStore.AuthState) : World :=
  {| isRefreshing := false; refreshPromise := None; jar := jar0; now := now0;
     store := store0; promises := ∅; frames := ∅; microtasks := [];
     next_pid := 0%nat; sent := [] |}.

Definition set_isRefreshing (b : bool) (w : World) : World :=
  {| isRefreshing := b; refreshPromise := refreshPromise w; jar := jar w;
     now := now w; store := store w; promises := promises w;
     frames := frames w; microtasks := microtasks w; next_pid := next_pid w;
     sent := sent w |}.

Definition set_refreshPromise (p : option pid) (w : World) : World :=
  {| isRefreshing := isRefreshing w; refreshPromise := p; jar := jar w;
     now := now w; store := store w; promises := promises w;
     frames := frames w; microtasks := microtasks w; next_pid := next_pid w;
     sent := sent w |}.

Definition set_jar (j : gmap string cookie) (w : World) : World :=
  {| isRefreshing := isRefreshing w; refreshPromise := refreshPromise w;
     jar := j; now := now w; store := store w; promises := promises w;
     frames := frames w; microtasks := microtasks w; next_pid := next_pid w;
     sent := sent w |}.

Definition set_now (t : Z) (w : World) : World :=
  {| isRefreshing := isRefreshing w; refreshPromise := refreshPromise w;
     jar := jar w; now := t; store := store w; promises := promises w;
     frames := frames w; microtasks := microtasks w; next_pid := next_pid w;
     sent := sent w |}.

Definition set_store (st : AuthStore.AuthState) (w : World) : World :=
  {| isRefreshing := isRefreshing w; refreshPromise := refreshPromise w;
     jar := jar w; now := now w; store := st; promises := promises w;
     frames := frames w; microtasks := microtasks w; next_pid := next_pid w;
     sent := sent w |}.

Definition set_microtasks (l : list pid) (w : World) : World :=
  {| isRefreshing := isRefreshing w; refreshPromise := refreshPromise w;
     jar := jar w; now := now w; store := store w; promises := promises w;
     frames := frames w; microtasks := l; next_pid := next_pid w;
     sent := sent w |}.

(** Calling an asynchronous function creates its promise. *)
Definition new_promise (w : World) : pid * World :=
  (next_pid w,
   {| isRefreshing := isRefreshing w; refreshPromise := refreshPromise w;
      jar := jar w; now := now w; store := store w;
      promises := <[next_pid w := Pending []]> (promises w);
      frames := frames w; microtasks := microtasks w;
      next_pid := S (next_pid w); sent := sent w |}).

(** The activation [q] returns or throws: its promise settles and its
    reactions are queued in registration order. *)
Definition settle (q : pid) (o : outcome) (w : World) : World :=
  {| isRefreshing := isRefreshing w; refreshPromise := refreshPromise w;
     jar := jar w; now := now w; store := store w;
     promises := <[q := Settled o]> (promises w);
     frames := delete q (frames w);
     microtasks :=
       match promises w !! q with
       | Some (Pending ws) => microtasks w ++ ws
       | _ => microtasks w
       end;
     next_pid := next_pid w; sent := sent w |}.

(** The activation [q] suspends as [f] on [await p]: it is queued at
    once when [p] is already settled. *)
Definition await (q : pid) (p : pid) (f : frame) (w : World) : World :=
  {| isRefreshing := isRefreshing w; refreshPromise := refreshPromise w;
     jar := jar w; now := now w; store := store w;
     promises :=
       match promises w !! p with
       | Some (Pending ws) => <[p := Pending (ws ++ [q])]> (promises w)
       | _ => promises w
       end;
     frames := <[q := f]> (frames w);
     microtasks :=
       match promises w !! p with
       | Some (Settled _) => microtasks w ++ [q]
       | _ => microtasks w
       end;
     next_pid := next_pid w; sent := sent w |}.

(** The activation [q] calls [fetch] and suspends until the answer. *)
Definition await_fetch (q : pid) (f : frame) (c : FetchCall) (w : World) : World :=
  {| isRefreshing := isRefreshing w; refreshPromise := refreshPromise w;
     jar := jar w; now := now w; store := store w; promises := promises w;
     frames := <[q := f]> (frames w); microtasks := microtasks w;
     next_pid := next_pid w; sent := sent w ++ [c] |}.

Definition session_expired : ApiError :=
  mkError ErrorCode.TOKEN_EXPIRED "Session expired. Please log in again." 401.

Definition no_refresh_token : ApiError :=
  mkError ErrorCode.INVALID_TOKEN "No valid refresh token available" 401.

Definition refresh_failed : ApiError :=
  mkError ErrorCode.TOKEN_EXPIRED "Failed to refresh token" 401.

(** A cookie value that is truthy: neither [null] nor the empty string. *)
Definition nonempty (token : option string) : option string :=
  match token with
  | Some t => if String.eqb t "" then None else Some t
  | None => None
  end.

(** [token && { Authorization: `Bearer ${token}` }]. *)
Definition bearer (token : option string) : option string := nonempty token.

Section WithRuntime.
Context {rt : JsRuntime}.

(** *** The turns of [request] and [ensureValidToken] *)

(** [request], lines 126-137: read the access token, build the
    configuration, call [fetch]. *)
Definition request_send (q : pid) (endpoint : string) (opts : Options)
    (isRetry : bool) (w : World) : World :=
  let token := getAuthToken (jar w) (now w) in
  await_fetch q (ReqAwaitFetch endpoint opts isRetry)
    {| url := endpoint; authorization := bearer token; options := opts |} w.

(** [request] on one of the three endpoints that the guard of line 113
    excludes from the check of the access token. *)
Definition request_unchecked (endpoint : string) (opts : Options)
    (isRetry : bool) (w : World) : pid * World :=
  let (q, w) := new_promise w in
  (q, request_send q endpoint opts isRetry w).

(** [ensureValidToken] up to its first [await], or to its [throw]. *)
Definition ensureValidToken (w : World) : pid * World :=
  let (e, w) := new_promise w in
  match isRefreshing w, refreshPromise w with
  | true, Some p => (e, await e p (EvtAwaitInFlight p) w)
  | _, _ =>
      let refreshTokenValue := getRefreshToken (jar w) (now w) in
      match nonempty refreshTokenValue, isRefreshTokenValid (jar w) (now w) with
      | Some v, true =>
          let w := set_isRefreshing true w in
          let (p, w) :=
            request_unchecked "/auth/refresh" (post (RefreshBody v)) true w in
          let w := set_refreshPromise (Some p) w in
          (e, await e p (EvtAwaitOwn p) w)
      | _, _ => (e, settle e (Rejected no_refresh_token) w)
      end
  end.

(** [request] up to its first [await], or to its [throw]. *)
Definition request (endpoint : string) (opts : Options) (isRetry : bool)
    (w : World) : pid * World :=
  if is_auth_endpoint endpoint then request_unchecked endpoint opts isRetry w
  else
    let (q, w) := new_promise w in
    let currentToken := getAuthToken (jar w) (now w) in
    if isTokenExpiredOrExpiringSoon currentToken (now w) then
      let (e, w) := ensureValidToken w in
      (q, await q e (ReqAwaitPrecheck endpoint opts isRetry e) w)
    else (q, request_send q endpoint opts isRetry w).

(** [finally { this.isRefreshing = false; this.refreshPromise = null }]. *)
Definition finally_reset (w : World) : World :=
  set_refreshPromise None (set_isRefreshing false w).

Definition store_tokens (d : AuthData) (w : World) : World :=
  let w := set_jar (setAuthToken (accessToken d) (jar w) (now w)) w in
  set_jar (setRefreshToken (Types.refreshToken d) (jar w) (now w)) w.

(** The activation [q], suspended as [f], goes on after the promise it
    awaited settled with [o].  [None] marks the combinations that the
    types of the source exclude. *)
Definition resume (q : pid) (f : frame) (o : outcome) (w : World) : option World :=
  match f with
  | ReqAwaitPrecheck endpoint opts isRetry _ =>
      match o with
      | Fulfilled _ => Some (request_send q endpoint opts isRetry w)
      | Rejected _ =>
          Some (settle q (Rejected session_expired)
                  (set_jar (removeAuthTokens (jar w)) w))
      end
  | ReqAwaitFetch _ _ _ => None
  | ReqAwaitRenewal endpoint opts _ =>
      match o with
      | Fulfilled _ =>
          let (r, w) := request endpoint opts true w in
          Some (await q r (ReqAwaitRetry r) w)
      | Rejected _ =>
          Some (settle q (Rejected session_expired)
                  (set_jar (removeAuthTokens (jar w)) w))
      end
  | ReqAwaitRetry _ => Some (settle q o w)
  | EvtAwaitInFlight _ =>
      match o with
      | Fulfilled _ => Some (settle q (Fulfilled VVoid) w)
      | Rejected e => Some (settle q (Rejected e) w)
      end
  | EvtAwaitOwn _ =>
      match o with
      | Fulfilled (VResponse response) =>
          match success response, data response with
          | Some true, Some d =>
              Some (settle q (Fulfilled VVoid) (finally_reset (store_tokens d w)))
          | _, _ => Some (settle q (Rejected refresh_failed) (finally_reset w))
          end
      | Fulfilled VVoid => None
      | Rejected e => Some (settle q (Rejected e) (finally_reset w))
      end
  | StoreTokensAwait _ _ =>
      match o with
      | Fulfilled (VResponse response) =>
          let w :=
            match success response, data response with
            | Some true, Some d => store_tokens d w
            | _, _ => w
            end in
          Some (settle q (Fulfilled (VResponse response)) w)
      | Fulfilled VVoid => None
      | Rejected e => Some (settle q (Rejected e) w)
      end
  end.

(** The answer to the [fetch] of activation [q] arrives. *)
Definition deliver (q : pid) (res : FetchResult AuthData) (w : World)
  : option World :=
  match frames w !! q with
  | Some (ReqAwaitFetch endpoint opts isRetry) =>
      match handle_response endpoint isRetry res with
      | Return r => Some (settle q (Fulfilled (VResponse r)) w)
      | Throw e => Some (settle q (Rejected e) w)
      | RenewAndRetry =>
          let (e, w) := ensureValidToken w in
          Some (await q e (ReqAwaitRenewal endpoint opts e) w)
      end
  | _ => None
  end.

(** [login], [register]: call [request] and wait for it. *)
Definition call_auth (who : AuthCall) (endpoint : string) (payload : string)
    (w : World) : pid * World :=
  let (l, w) := new_promise w in
  let (r, w) := request endpoint (post (DataBody payload)) false w in
  (l, await l r (StoreTokensAwait who r) w).

Definition login (payload : string) (w : World) : pid * World :=
  call_auth Login "/auth/login" payload w.

Definition register (payload : string) (w : World) : pid * World :=
  call_auth Register "/auth/register" payload w.

(** [refreshToken], the manual renewal. *)
Definition refreshToken (w : World) : pid * World :=
  let (l, w) := new_promise w in
  let refreshTokenValue := getRefreshToken (jar w) (now w) in
  match nonempty refreshTokenValue, isRefreshTokenValid (jar w) (now w) with
  | Some v, true =>
      let (r, w) := request "/auth/refresh" (post (RefreshBody v)) true w in
      (l, await l r (StoreTokensAwait RefreshToken r) w)
  | _, _ => (l, settle l (Rejected no_refresh_token) w)
  end.

(** [health] and the other data methods return the promise of
    [request] as it is. *)
Definition health (w : World) : pid * World := request "/health" no_options false w.

(** *** lib/hooks/auth.ts: the watchdog *)

Definition validateTokens (w : World) : World :=
  let currentToken := getAuthToken (jar w) (now w) in
  if isTokenExpiredOrExpiringSoon currentToken (now w)
     && isRefreshTokenValid (jar w) (now w)
  then snd (health w)
  else if negb (isRefreshTokenValid (jar w) (now w)) then
    let (st, j) := AuthStore.clearAuth (store w) (jar w) in
    set_jar j (set_store st w)
  else w.

(** *** The event loop *)

Inductive Event :=
| Call (endpoint : string) (opts : Options)   (* a data method of the client *)
| CallLogin (payload : string)
| CallRegister (payload : string)
| CallRefreshToken
| Deliver (q : pid) (res : FetchResult AuthData)
| Microtask
| Tick (t : Z)
| CheckAuth
| ClearAuth
| SetAuth (u o : json)
| ValidateTokens.

(** A task: something from outside the microtask queue. *)
Definition task (ev : Event) (w : World) : option World :=
  match ev with
  | Call endpoint opts =>
      if is_auth_endpoint endpoint then None
      else Some (snd (request endpoint opts false w))
  | CallLogin payload => Some (snd (login payload w))
  | CallRegister payload => Some (snd (register payload w))
  | CallRefreshToken => Some (snd (refreshToken w))
  | Deliver q res => deliver q res w
  | Microtask => None
  | Tick t => Some (set_now t w)
  | CheckAuth =>
      let '(_, (st, j)) := AuthStore.checkAuth (store w) (jar w) (now w) in
      Some (set_jar j (set_store st w))
  | ClearAuth =>
      let (st, j) := AuthStore.clearAuth (store w) (jar w) in
      Some (set_jar j (set_store st w))
  | SetAuth u o => Some (set_store (AuthStore.setAuth u o (store w)) w)
  | ValidateTokens => Some (validateTokens w)
  end.

(** One turn.  The microtask queue is drained before the next task
    starts; a queued activation goes on with the outcome of the promise
    it awaited. *)
Definition step (w : World) (ev : Event) : option World :=
  match microtasks w, ev with
  | q :: rest, Microtask =>
      match frames w !! q with
      | Some f =>
          match awaited f with
          | Some p =>
              match promises w !! p with
              | Some (Settled o) => resume q f o (set_microtasks rest w)
              | _ => None
              end
          | None => None
          end
      | None => None
      end
  | [], _ => task ev w
  | _ :: _, _ => None
  end.

Fixpoint run (w : World) (evs : list Event) : option World :=
  match evs with
  | [] => Some w
  | ev :: evs' =>
      match step w ev with
      | Some w' => run w' evs'
      | None => None
      end
  end.

End WithRuntime.

End ApiClient.

(** ** A reference host

    A small instance of [JsRuntime], used to run the model on concrete
    tokens: [atob] on the base64 alphabet, [decodeURIComponent] on
    escapes of ASCII characters, [JSON.parse] on flat objects whose
    members are non-negative integers, and [ToNumber] on strings of
    decimal digits. *)

Module Host.

Definition sextet (c : ascii) : option N :=
  let n := N_of_ascii c in
  (if (65 <=? n) && (n <=? 90) then Some (n - 65)
   else if (97 <=? n) && (n <=? 122) then Some (n - 71)
   else if (48 <=? n) && (n <=? 57) then Some (n + 4)
   else if n =? 43 then Some 62
   else if n =? 47 then Some 63
   else None)%N.

(** Decode sextets into bytes, keeping [bits] pending bits in [acc]. *)
Fixpoint decode_sextets (s : string) (acc bits : N) : option string :=
  match s with
  | EmptyString => Some EmptyString
  | String c rest =>
      if Ascii.eqb c "="%char then Some EmptyString
      else
        match sextet c with
        | None => None
        | Some v =>
            let acc := (acc * 64 + v)%N in
            let bits := (bits + 6)%N in
            if (8 <=? bits)%N then
              let bits := (bits - 8)%N in
              match decode_sextets rest (acc mod 2 ^ bits)%N bits with
              | Some out => Some (String (ascii_of_N (acc / 2 ^ bits)%N) out)
              | None => None
              end
            else decode_sextets rest acc bits
        end
  end.

Definition host_atob (s : string) : option string := decode_sextets s 0%N 0%N.

Definition hex_value (c : ascii) : option N :=
  let n := N_of_ascii c in
  (if (48 <=? n) && (n <=? 57) then Some (n - 48)
   else if (97 <=? n) && (n <=? 102) then Some (n - 87)
   else if (65 <=? n) && (n <=? 70) then Some (n - 55)
   else None)%N.

Fixpoint host_decodeURIComponent (s : string) : option string :=
  match s with
  | EmptyString => Some EmptyString
  | String p (String h (String l rest)) =>
      if Ascii.eqb p "%"%char then
        match hex_value h, hex_value l with
        | Some a, Some b =>
            if (a <? 8)%N then
              match host_decodeURIComponent rest with
              | Some out => Some (String (ascii_of_N (16 * a + b)%N) out)
              | None => None
              end
            else None
        | _, _ => None
        end
      else None
  | _ => None
  end.

Definition quote : ascii := "034"%char.

Definition is_digit (c : ascii) : bool :=
  let n := N_of_ascii c in ((48 <=? n) && (n <=? 57))%N.

Fixpoint digits (s : string) (acc : Z) : Z * string :=
  match s with
  | String c rest =>
      if is_digit c then digits rest (10 * acc + Z.of_N (N_of_ascii c) - 48)
      else (acc, s)
  | EmptyString => (acc, s)
  end.

Fixpoint until_quote (s : string) : option (string * string) :=
  match s with
  | EmptyString => None
  | String c rest =>
      if Ascii.eqb c quote then Some (EmptyString, rest)
      else
        match until_quote rest with
        | Some (k, rest') => Some (String c k, rest')
        | None => None
        end
  end.

(** The members of an object after its opening brace. *)
Fixpoint members (fuel : nat) (s : string) : option (list (string * json)) :=
  match fuel, s with
  | S fuel', String q rest =>
      if Ascii.eqb q quote then
        match until_quote rest with
        | Some (k, String colon (String d rest')) =>
            if Ascii.eqb colon ":"%char && is_digit d then
              match digits (String d rest') 0 with
              | (n, String c rest'') =>
                  if Ascii.eqb c "}"%char then
                    match rest'' with
                    | EmptyString => Some [(k, JNum n)]
                    | _ => None
                    end
                  else if Ascii.eqb c ","%char then
                    match members fuel' rest'' with
                    | Some ms => Some ((k, JNum n) :: ms)
                    | None => None
                    end
                  else None
              | _ => None
              end
            else None
        | _ => None
        end
      else None
  | _, _ => None
  end.

Definition host_JSON_parse (s : string) : option json :=
  match s with
  | String b rest =>
      if Ascii.eqb b "{"%char then
        match members (String.length rest) rest with
        | Some ms => Some (JObj ms)
        | None => None
        end
      else None
  | EmptyString => None
  end.

Definition host_ToNumber (v : json) : option Z :=
  match v with
  | JStr (String d rest) =>
      if is_digit d then
        match digits (String d rest) 0 with
        | (n, EmptyString) => Some n
        | _ => None
        end
      else None
  | _ => None
  end.

Definition runtime : JsRuntime :=
  {| atob := host_atob; decodeURIComponent := host_decodeURIComponent;
     JSON_parse := host_JSON_parse; ToNumber := host_ToNumber |}.

(** A token whose payload segment is the base64 of [{"exp":2000}],
    and so on. *)
Definition token_exp_2000 : string := "h.eyJleHAiOjIwMDB9.s".
Definition token_exp_1000 : string := "h.eyJleHAiOjEwMDB9.s".
Definition token_exp_1119 : string := "h.eyJleHAiOjExMTl9.s".
Definition token_exp_1120 : string := "h.eyJleHAiOjExMjB9.s".
Definition token_exp_1121 : string := "h.eyJleHAiOjExMjF9.s".
Definition token_exp_9000 : string := "h.eyJleHAiOjkwMDB9.s".
Definition token_no_exp : string := "h.eyJzdWIiOjd9.s".

End Host.


(** ** Notions used in the statements *)

Section Notions.
Context {rt : JsRuntime}.
Import Cookies Types ApiClient.

(** An error that ends the session: status 401 with one of the two
    token codes. *)
Definition SessionExpired (e : ApiError) : Prop :=
  statusCode e = 401 /\
  (code e = ErrorCode.INVALID_TOKEN \/ code e = ErrorCode.TOKEN_EXPIRED).


Definition is_renewal_request (f : frame) : bool :=
  match f with
  | ReqAwaitFetch endpoint _ _ => String.eqb endpoint "/auth/refresh"
  | _ => false
  end.

(** The activations whose [fetch] of the renewal endpoint has not been
    answered yet. *)
Definition renewals_in_flight (w : World) : list pid :=
  (filter (fun qf => is_renewal_request qf.2 = true) (map_to_list (frames w))).*1.

(** What a turn may do to the jar. *)
Inductive jar_change (now : Z) (j j' : gmap string cookie) : Prop :=
| jar_same : j' = j -> jar_change now j j'
| jar_cleared : j' = removeAuthTokens j -> jar_change now j j'
| jar_pair (d : AuthData) :
    j' = setRefreshToken (Types.refreshToken d)
           (setAuthToken (accessToken d) j now) now ->
    jar_change now j j'.

(** The promise [q] has not settled. *)
Definition unsettled (w : World) (q : pid) : Prop :=
  forall o, promises w !! q <> Some (Settled o).



(** What a call leaves of the world it started from. *)
Record extends (w w' : World) : Prop := {
  ext_next : (next_pid w <= next_pid w')%nat;
  ext_frames : forall q, (q < next_pid w)%nat -> frames w' !! q = frames w !! q;
  ext_unsettled : forall q, (q < next_pid w)%nat -> unsettled w q -> unsettled w' q;
}.

(** The turn that starts a renewal, from a world in which none is in
    progress. *)
Definition start_renewal (v : string) (w : World) : World :=
  let e := next_pid w in
  let w := set_isRefreshing true (new_promise w).2 in
  let pw := request_unchecked "/auth/refresh" (post (RefreshBody v)) true w in
  await e pw.1 (EvtAwaitOwn pw.1) (set_refreshPromise (Some pw.1) pw.2).

End Notions.

(** ** Scenarios

    Worlds and schedules on the reference host, for the examples. *)

Module Scenario.
Import Cookies Types ApiClient.

(** A jar with a refresh token that expires at second 9000 and no access
    token, read at second 1000. *)
Definition jar0 : gmap string cookie := setRefreshToken Host.token_exp_9000 ∅ 0.
Definition w0 : World := initial jar0 1000000 AuthStore.initial.

(** A jar with an access token and a refresh token, both good until
    second 9000. *)
Definition jar1 : gmap string cookie :=
  setRefreshToken Host.token_exp_9000 (setAuthToken Host.token_exp_9000 ∅ 0) 0.
Definition w1 : World := initial jar1 800000 AuthStore.initial.

(** Two data calls in the same turn sequence: activations 0 and 3 are
    the two requests, 1 and 4 their calls of [ensureValidToken], 2 the
    request to the renewal endpoint. *)
Definition two_callers : list Event :=
  [Call "/devices" no_options; Call "/messages" no_options].

(** The renewal endpoint answers 200 with a body that declares
    [success: false] and carries neither payload nor error. *)
Definition refresh_refused : FetchResult AuthData :=
  Response 200 "OK"
    (JsonBody {| success := Some false; data := None; error := None |}).

Definition new_pair : AuthData :=
  {| accessToken := Host.token_exp_9000; Types.refreshToken := Host.token_exp_9000 |}.

Definition refresh_granted : FetchResult AuthData :=
  Response 200 "OK"
    (JsonBody {| success := Some true; data := Some new_pair; error := None |}).

Definition unauthorized : FetchResult AuthData :=
  Response 401 "Unauthorized"
    (JsonBody {| success := Some false; data := None;
                 error := Some {| err_code := ErrorCode.UNAUTHORIZED;
                                  err_message := "token rejected";
                                  err_details := None |} |}).

Definition unauthorized_html : FetchResult AuthData :=
  Response 401 "Unauthorized" (NotJson "Unexpected token < in JSON").

(** [w1] after a data call: activation 0 is the request, waiting for
    the answer to its [fetch]. *)
Definition w1_waiting : World :=
  (request (rt := Host.runtime) "/devices" no_options false w1).2.

(** A page without any cookie. *)
Definition w_empty : World := initial ∅ 1000000 AuthStore.initial.

(** A page whose refresh token expired at second 1000, read at second
    1000. *)
Definition w_expired : World :=
  initial (setRefreshToken Host.token_exp_1000 ∅ 0) 1000000 AuthStore.initial.

End Scenario.

(** ** The route guard (middleware.ts) *)

Module Middleware.

Definition publicRoutes : list string := ["/auth/login"; "/auth/register"].

Definition excludedPaths : list string :=
  ["/api"; "/_next/static"; "/_next/image"; "/favicon.ico"; "/sitemap.xml";
   "/robots.txt"].

(** [pathname.startsWith(path)]. *)
Definition startsWith (pathname path : string) : bool := String.prefix path pathname.

(** The white space that [trim] removes, among the characters below 256:
    TAB, LF, VT, FF, CR, SP and NBSP. *)
Definition is_white_space (c : ascii) : bool :=
  let n := N_of_ascii c in
  (((9 <=? n) && (n <=? 13)) || (n =? 32) || (n =? 160))%N.

(** [s.trim() === ""]. *)
Fixpoint trims_to_empty (s : string) : bool :=
  match s with
  | EmptyString => true
  | String c rest => is_white_space c && trims_to_empty rest
  end.

(** [authToken && authToken.trim() !== ""]. *)
Definition hasValidToken (authToken : option string) : bool :=
  match authToken with
  | Some t => negb (String.eqb t "") && negb (trims_to_empty t)
  | None => false
  end.

(** What the guard answers: let the request through, or redirect to a
    path, with the [redirect] search parameter when it sets one. *)
Inductive Answer :=
| Next
| Redirect (target : string) (redirect : option string).

Definition middleware (pathname : string) (authToken : option string) : Answer :=
  if existsb (fun path => startsWith pathname path) excludedPaths then Next
  else
    let isPublicRoute := existsb (fun route => startsWith pathname route) publicRoutes in
    let isRootPath := String.eqb pathname "/" in
    if negb (hasValidToken authToken) then
      if negb isPublicRoute && negb isRootPath
      then Redirect "/auth/login" (Some pathname)
      else Next
    else if isPublicRoute then Redirect "/dashboard" None
    else if isRootPath then Redirect "/dashboard" None
    else Next.

End Middleware.

(** ** The retry policy of the query client (providers.tsx) *)

Module QueryRetry.

(** [message.includes(needle)]. *)
Definition includes (message needle : string) : bool :=
  match String.index 0 needle message with
  | Some _ => true
  | None => false
  end.

(** [retry(failureCount, error)]; [error] is [Some message] when the
    error is an instance of [Error], as every [ApiError] is. *)
Definition retry (failureCount : Z) (error : option string) : bool :=
  match error with
  | Some m => if includes m "4" then false else failureCount <? 3
  | None => failureCount <? 3
  end.

End QueryRetry.

(** ** Notions for the further properties *)

(** The two tests of the guard on a path. *)
Definition excluded (pathname : string) : bool :=
  existsb (fun path => Middleware.startsWith pathname path)
    Middleware.excludedPaths.

Definition public (pathname : string) : bool :=
  existsb (fun route => Middleware.startsWith pathname route)
    Middleware.publicRoutes.

(** The string contains a dot. *)
Fixpoint has_dot (s : string) : bool :=
  match s with
  | EmptyString => false
  | String c rest => Ascii.eqb c "."%char || has_dot rest
  end.

(** The value of a lowercase hexadecimal digit, and the character that
    an escape [%xy] stands for. *)
Definition unhex (c : ascii) : nat :=
  let n := nat_of_ascii c in
  (if n <? 58 then n - 48 else n - 87)%nat.

Fixpoint percent_decode (s : string) : string :=
  match s with
  | String _ (String h (String l rest)) =>
      String (ascii_of_nat (16 * unhex h + unhex l)) (percent_decode rest)
  | _ => EmptyString
  end.

(** A host whose parser answers one fixed payload, whatever the token;
    [atob] and [decodeURIComponent] are left out. *)
Definition host_with_payload (payload : json) : JsRuntime :=
  {| atob := Some; decodeURIComponent := Some;
     JSON_parse := fun _ => Some payload; ToNumber := Host.host_ToNumber |}.


(** ** The login page (app/auth/login/page.tsx) *)

Module LoginPage.


End LoginPage.

(** ** The latch of the renewal, in every run *)

Section LatchNotions.
Import ApiClient.

(** The owner [e] of the renewal [p] will run again: it is registered
    on the pending promise of the renewal request, which awaits its
    answer; or that promise has settled and [e] is in the microtask
    queue. *)
Definition owner_waits (w : World) (p e : pid) : Prop :=
  match promises w !! p with
  | Some (Pending ws) =>
      e ∈ ws /\
      exists opts, frames w !! p = Some (ReqAwaitFetch "/auth/refresh" opts true)
  | Some (Settled _) => e ∈ microtasks w
  | None => False
  end.

(** The invariant of the two fields of the client, in every run, the
    manual renewal included.  They are set and reset together, and
    while they are set the activation of [ensureValidToken] that will
    reset them is suspended on the promise that [refreshPromise] names. *)
Record Latch (w : World) : Prop := {
  latch_fresh : forall q f, frames w !! q = Some f -> (q < next_pid w)%nat;
  latch_open : isRefreshing w = false -> refreshPromise w = None;
  latch_closed : isRefreshing w = true ->
    exists p e, refreshPromise w = Some p /\ (p < next_pid w)%nat /\
      frames w !! e = Some (EvtAwaitOwn p) /\ owner_waits w p e;
}.

(** An activation that is neither the owner of a renewal nor a request
    to the renewal endpoint, if it is suspended at all. *)
Definition spare (w : World) (q : pid) : Prop :=
  forall f, frames w !! q = Some f ->
    match f with
    | EvtAwaitOwn _ => False
    | ReqAwaitFetch endpoint _ _ => endpoint <> "/auth/refresh"
    | _ => True
    end.

(** A call allocates above [next_pid] and leaves the suspended
    activations below it as they were. *)
Record keeps (w w' : World) : Prop := {
  keeps_next : (next_pid w <= next_pid w')%nat;
  keeps_frames : forall q, (q < next_pid w)%nat -> frames w' !! q = frames w !! q;
}.

End LatchNotions.

(** * Properties *)

(** The first step of a call: name the promise that [new_promise]
    allocates and go on with the world it returns. *)
Ltac open_new_promise w :=
  change (ApiClient.new_promise w)
    with (ApiClient.next_pid w, snd (ApiClient.new_promise w));
  cbv iota beta.

(** Invert a lookup in a map after an insertion at [q]. *)
Ltac insert_cases H :=
  apply lookup_insert_Some in H as [[<- <-]|[_ H]].

(** ** The token inspector *)

Section InspectorFacts.
Context {rt : JsRuntime}.
Import Cookies.

Lemma get_prop_truthy (p : json) (k : string) (e : json) :
  get_prop p k = Some e -> truthy p = true.
Proof. destruct p; simpl; congruence. Qed.

Lemma exp_claim_Some (p e : json) :
  exp_claim p = Some e <-> get_prop p "exp" = Some e /\ truthy e = true.
Proof.
  unfold exp_claim. split.
  - destruct (truthy p); simpl; [|discriminate].
    destruct (get_prop p "exp") as [e'|]; [|discriminate].
    destruct (truthy e') eqn:He'; simpl; [|discriminate].
    intros [= <-]. auto.
  - intros [Hg He]. rewrite (get_prop_truthy _ _ _ Hg), Hg, He. reflexivity.
Qed.

Lemma exp_claim_num (p : json) (n : Z) :
  get_prop p "exp" = Some (JNum n) ->
  exp_claim p = if n =? 0 then None else Some (JNum n).
Proof.
  intros Hg. unfold exp_claim.
  rewrite (get_prop_truthy _ _ _ Hg), Hg. simpl.
  destruct (n =? 0); reflexivity.
Qed.

Lemma exp_claim_null : exp_claim JNull = None.
Proof. reflexivity. Qed.

Lemma decodeJWTPayload_empty : decodeJWTPayload "" = JNull.
Proof. reflexivity. Qed.

Lemma currentTime_nonneg (now : Z) : 0 <= now -> 0 <= currentTime now.
Proof. intros H. unfold currentTime. apply Z.div_pos; lia. Qed.

(** A value that JavaScript finds greater than a non-negative number is
    truthy. *)
Lemma js_gt_truthy (e : json) (c : Z) :
  0 <= c -> js_gt e c = true -> truthy e = true.
Proof.
  intros Hc. unfold js_gt. destruct e as [|[]|n|s| |]; simpl; try reflexivity.
  - intros H. apply Z.ltb_lt in H. lia.
  - intros H. apply Z.ltb_lt in H. lia.
  - intros H. apply Z.ltb_lt in H.
    destruct (Z.eqb_spec n 0); [lia | reflexivity].
  - destruct (String.eqb s ""); [|reflexivity].
    intros H. apply Z.ltb_lt in H. lia.
Qed.

(** Reading a token with a numeric [exp] claim, once the clock is past
    the epoch. *)
Lemma isTokenExpiredOrExpiringSoon_num (t : string) (n now : Z) :
  get_prop (decodeJWTPayload t) "exp" = Some (JNum n) ->
  0 <= now ->
  isTokenExpiredOrExpiringSoon (Some t) now = (n <=? currentTime now + 120).
Proof.
  intros Hg Hnow. unfold isTokenExpiredOrExpiringSoon.
  destruct (String.eqb_spec t "") as [->|_].
  { rewrite decodeJWTPayload_empty in Hg. discriminate. }
  rewrite (exp_claim_num _ _ Hg).
  pose proof (currentTime_nonneg now Hnow).
  destruct (Z.eqb_spec n 0) as [->|_].
  - symmetry. apply Z.leb_le. lia.
  - reflexivity.
Qed.

(** C7.  [isTokenExpiredOrExpiringSoon] answers true for an absent
    token, for a token that cannot be decoded, and for a token whose
    expiration claim is at most 120 seconds after the current second
    (so for now+119 and earlier); it answers false for a claim of
    now+121 or later. *)
Theorem isTokenExpiredOrExpiringSoon_boundary (now : Z) (Hnow : 0 <= now) :
  isTokenExpiredOrExpiringSoon None now = true /\
  (forall t, decodeJWTPayload t = JNull ->
     isTokenExpiredOrExpiringSoon (Some t) now = true) /\
  (forall t n, get_prop (decodeJWTPayload t) "exp" = Some (JNum n) ->
     n <= currentTime now + 120 ->
     isTokenExpiredOrExpiringSoon (Some t) now = true) /\
  (forall t n, get_prop (decodeJWTPayload t) "exp" = Some (JNum n) ->
     n <= currentTime now + 119 ->
     isTokenExpiredOrExpiringSoon (Some t) now = true) /\
  (forall t n, get_prop (decodeJWTPayload t) "exp" = Some (JNum n) ->
     currentTime now + 121 <= n ->
     isTokenExpiredOrExpiringSoon (Some t) now = false).
Proof.
  split; [reflexivity|]. split.
  { intros t Ht. unfold isTokenExpiredOrExpiringSoon.
    rewrite Ht, exp_claim_null. destruct (String.eqb t ""); reflexivity. }
  repeat split; intros t n Hg Hn;
    rewrite (isTokenExpiredOrExpiringSoon_num t n now Hg Hnow).
  - apply Z.leb_le. lia.
  - apply Z.leb_le. lia.
  - apply Z.leb_gt. lia.
Qed.

Lemma isRefreshTokenValid_num (jar : gmap string cookie) (t : string) (n now : Z) :
  getRefreshToken jar now = Some t ->
  get_prop (decodeJWTPayload t) "exp" = Some (JNum n) ->
  0 <= now ->
  isRefreshTokenValid jar now = (currentTime now <? n).
Proof.
  intros Ht Hg Hnow. unfold isRefreshTokenValid. rewrite Ht.
  destruct (String.eqb_spec t "") as [->|_].
  { rewrite decodeJWTPayload_empty in Hg. discriminate. }
  rewrite (exp_claim_num _ _ Hg).
  pose proof (currentTime_nonneg now Hnow).
  destruct (Z.eqb_spec n 0) as [->|_].
  - symmetry. apply Z.ltb_ge. lia.
  - reflexivity.
Qed.

(** C8.  The refresh token is valid exactly when it is present, decodes
    to a payload with an expiration claim, and that claim is strictly
    greater than the current second, without any buffer: a claim equal
    to the current second is invalid, and a token that cannot be decoded
    is invalid (the function always returns). *)
Theorem isRefreshTokenValid_iff (jar : gmap string cookie) (now : Z)
    (Hnow : 0 <= now) :
  (isRefreshTokenValid jar now = true <->
   exists t e, getRefreshToken jar now = Some t /\
               get_prop (decodeJWTPayload t) "exp" = Some e /\
               js_gt e (currentTime now) = true) /\
  (forall t n, getRefreshToken jar now = Some t ->
     get_prop (decodeJWTPayload t) "exp" = Some (JNum n) ->
     (isRefreshTokenValid jar now = true <-> currentTime now < n)) /\
  (forall t, getRefreshToken jar now = Some t ->
     get_prop (decodeJWTPayload t) "exp" = Some (JNum (currentTime now)) ->
     isRefreshTokenValid jar now = false) /\
  (forall t, getRefreshToken jar now = Some t ->
     decodeJWTPayload t = JNull ->
     isRefreshTokenValid jar now = false).
Proof.
  pose proof (currentTime_nonneg now Hnow) as Hc.
  repeat split.
  - unfold isRefreshTokenValid.
    destruct (getRefreshToken jar now) as [t|]; [|discriminate].
    destruct (String.eqb t ""); [discriminate|].
    destruct (exp_claim (decodeJWTPayload t)) as [e|] eqn:He; [|discriminate].
    intros Hgt. apply exp_claim_Some in He as [Hg _]. eauto.
  - intros (t & e & Ht & Hg & Hgt). unfold isRefreshTokenValid. rewrite Ht.
    destruct (String.eqb_spec t "") as [->|_].
    { rewrite decodeJWTPayload_empty in Hg. discriminate. }
    assert (exp_claim (decodeJWTPayload t) = Some e) as ->.
    { apply exp_claim_Some. eauto using js_gt_truthy. }
    exact Hgt.
  - rewrite (isRefreshTokenValid_num jar t n now) by assumption.
    apply Z.ltb_lt.
  - rewrite (isRefreshTokenValid_num jar t n now) by assumption.
    apply Z.ltb_lt.
  - intros t Ht Hg.
    rewrite (isRefreshTokenValid_num jar t _ now Ht Hg Hnow).
    apply Z.ltb_irrefl.
  - intros t Ht Hd. unfold isRefreshTokenValid.
    rewrite Ht, Hd, exp_claim_null. destruct (String.eqb t ""); reflexivity.
Qed.

End InspectorFacts.

Lemma isTokenExpiredOrExpiringSoon_boundary_witness :
  Cookies.isTokenExpiredOrExpiringSoon (rt := Host.runtime)
    (Some Host.token_exp_1119) 1000000 = true /\
  Cookies.isTokenExpiredOrExpiringSoon (rt := Host.runtime)
    (Some Host.token_exp_1120) 1000000 = true /\
  Cookies.isTokenExpiredOrExpiringSoon (rt := Host.runtime)
    (Some Host.token_exp_1121) 1000000 = false.
Proof.
  assert (0 <= 1000000) as Hnow by lia.
  pose proof (isTokenExpiredOrExpiringSoon_boundary (rt := Host.runtime)
                1000000 Hnow) as (_ & _ & Hle & Hsoon & Hlater).
  split; [|split].
  - apply (Hsoon Host.token_exp_1119 1119); [reflexivity | vm_compute; discriminate].
  - apply (Hle Host.token_exp_1120 1120); [reflexivity | vm_compute; discriminate].
  - apply (Hlater Host.token_exp_1121 1121); [reflexivity | vm_compute; discriminate].
Defined.

Lemma isRefreshTokenValid_iff_witness :
  Cookies.isRefreshTokenValid (rt := Host.runtime)
    (Cookies.setRefreshToken Host.token_exp_2000 ∅ 0) 1000000 = true /\
  Cookies.isRefreshTokenValid (rt := Host.runtime)
    (Cookies.setRefreshToken Host.token_exp_1000 ∅ 0) 1000000 = false.
Proof.
  assert (0 <= 1000000) as Hnow by lia.
  split.
  - apply (proj1 (isRefreshTokenValid_iff (rt := Host.runtime) _ 1000000 Hnow)).
    exists Host.token_exp_2000, (JNum 2000).
    repeat split; vm_compute; reflexivity.
  - apply (proj1 (proj2 (proj2
             (isRefreshTokenValid_iff (rt := Host.runtime) _ 1000000 Hnow)))
             Host.token_exp_1000); vm_compute; reflexivity.
Defined.

(** ** The store: [checkAuth] *)

Section StoreFacts.
Context {rt : JsRuntime}.
Import Cookies AuthStore.

Lemma AUTH_REFRESH_distinct : AUTH_TOKEN_COOKIE <> REFRESH_TOKEN_COOKIE.
Proof. discriminate. Qed.

Lemma getAuthToken_removeAuthTokens (jar : gmap string cookie) (now : Z) :
  getAuthToken (removeAuthTokens jar) now = None.
Proof.
  unfold getAuthToken, getCookie, removeAuthTokens, deleteCookie.
  rewrite lookup_delete_ne by (symmetry; apply AUTH_REFRESH_distinct).
  rewrite lookup_delete_eq. reflexivity.
Qed.

Lemma getRefreshToken_removeAuthTokens (jar : gmap string cookie) (now : Z) :
  getRefreshToken (removeAuthTokens jar) now = None.
Proof.
  unfold getRefreshToken, getCookie, removeAuthTokens, deleteCookie.
  rewrite lookup_delete_eq. reflexivity.
Qed.

(** C3, amended.  [checkAuth] returns true exactly when the refresh
    token is valid, whether or not an access token is present.  With a
    valid refresh token it changes nothing.  Without one it returns
    false and, when the store was authenticated, clears the session:
    both cookies are removed and the store is reset; a store that was
    not authenticated is left as it is. *)
Theorem checkAuth_refresh_token_decides (st : AuthState)
    (jar : gmap string cookie) (now : Z) :
  let '(result, (st', jar')) := checkAuth st jar now in
  result = isRefreshTokenValid jar now /\
  (if isRefreshTokenValid jar now then st' = st /\ jar' = jar
   else if isAuthenticated st then
     isAuthenticated st' = false /\ user st' = None /\
     jar' = removeAuthTokens jar /\
     getAuthToken jar' now = None /\ getRefreshToken jar' now = None
   else st' = st /\ jar' = jar).
Proof.
  unfold checkAuth.
  destruct (isRefreshTokenValid jar now) eqn:Hv; simpl.
  - rewrite orb_true_r. simpl. auto.
  - destruct (isAuthenticated st); simpl.
    + rewrite getAuthToken_removeAuthTokens, getRefreshToken_removeAuthTokens.
      auto 6.
    + auto.
Qed.

End StoreFacts.

(** C3 as stated fails: with an access token in the jar and no refresh
    token, "a valid refresh token exists or an access token is present"
    holds, and [checkAuth] returns false. *)
Lemma checkAuth_access_token_alone :
  let jar := Cookies.setAuthToken Host.token_exp_9000 ∅ 0 in
  AuthStore.present (Cookies.getAuthToken jar 1000) = true /\
  Cookies.isRefreshTokenValid (rt := Host.runtime) jar 1000 = false /\
  fst (AuthStore.checkAuth (rt := Host.runtime) AuthStore.initial jar 1000)
    = false.
Proof. vm_compute. auto. Qed.

(** ** The request gateway: reading a response *)

Section GatewayFacts.
Import Types ApiClient.

Lemma ok_not_401 : ok 401 = false.
Proof. reflexivity. Qed.

(** C4, amended.  A 2xx body is returned only when its [success]
    member is a boolean; a missing or non-boolean member fails with the
    network-error code and the status of the response.  A body with
    [success: false] and an error payload fails with the code of that
    payload.  Every other body with a boolean [success] is returned as
    it is: [success: false] without an error payload, and
    [success: true] with or without one. *)
Theorem handle_response_2xx {T : Type} (endpoint : string) (isRetry : bool)
    (status : Z) (statusText : string) (r : ApiResponse T)
    (Hok : ok status = true) :
  let h := handle_response endpoint isRetry
             (Response status statusText (JsonBody r)) in
  ((exists r', h = Return r') -> exists b, success r = Some b) /\
  (success r = None ->
   exists e, h = Throw e /\ code e = ErrorCode.NETWORK_ERROR /\
             statusCode e = status) /\
  (forall err, success r = Some false -> error r = Some err ->
   exists e, h = Throw e /\ code e = err_code err /\ statusCode e = status) /\
  (success r = Some false -> error r = None -> h = Return r) /\
  (success r = Some true -> h = Return r).
Proof.
  simpl. rewrite Hok. simpl.
  destruct (success r) as [[|]|]; destruct (error r) as [err|]; simpl;
    repeat split; try discriminate; try reflexivity; eauto;
    try (intros [r' [=]]); try (intros err' _ [=]; subst; eauto);
    try (intros; eexists; repeat split; reflexivity).
Qed.

End GatewayFacts.

Lemma handle_response_2xx_witness :
  ApiClient.handle_response (T := Types.AuthData) "/devices" false
    (ApiClient.Response 200 "OK"
       (ApiClient.JsonBody
          {| Types.success := Some false; Types.data := None;
             Types.error := None |}))
  = ApiClient.Return
      {| Types.success := Some false; Types.data := None; Types.error := None |}.
Proof.
  apply (proj1 (proj2 (proj2 (proj2
           (handle_response_2xx (T := Types.AuthData) "/devices" false 200 "OK"
              _ eq_refl))))); reflexivity.
Defined.

(** C4 as stated fails: a 200 body that declares [success: true] and
    also carries an error payload is returned to the caller, not
    thrown. *)
Lemma handle_response_success_with_error :
  let body : Types.ApiResponse Types.AuthData :=
    {| Types.success := Some true; Types.data := None;
       Types.error := Some {| Types.err_code := "INTERNAL_ERROR";
                              Types.err_message := "boom";
                              Types.err_details := None |} |} in
  ApiClient.handle_response "/devices" false
    (ApiClient.Response 200 "OK" (ApiClient.JsonBody body))
  = ApiClient.Return body.
Proof. reflexivity. Qed.

(** ** The turns of the client *)

Section MachineFacts.
Context {rt : JsRuntime}.
Import Cookies Types ApiClient.

(** Calls do not touch the cookies nor the clock. *)
Lemma ensureValidToken_jar (w : World) :
  jar (ensureValidToken w).2 = jar w /\ now (ensureValidToken w).2 = now w.
Proof.
  unfold ensureValidToken, request_unchecked, request_send.
  open_new_promise w.
  destruct (isRefreshing _); [destruct (refreshPromise _)|];
    try (split; reflexivity);
    destruct (nonempty _); try (split; reflexivity);
    destruct (isRefreshTokenValid _ _); split; reflexivity.
Qed.

Lemma request_jar (endpoint : string) (opts : Options) (isRetry : bool)
    (w : World) :
  jar (request endpoint opts isRetry w).2 = jar w /\
  now (request endpoint opts isRetry w).2 = now w.
Proof.
  unfold request, request_unchecked, request_send.
  open_new_promise w.
  destruct (is_auth_endpoint endpoint); [split; reflexivity|].
  destruct (isTokenExpiredOrExpiringSoon _ _); [|split; reflexivity].
  destruct (ensureValidToken_jar (new_promise w).2) as [Hj Hn].
  destruct (ensureValidToken (new_promise w).2) as [e w2]. simpl in *.
  auto.
Qed.

Lemma resume_jar (q : pid) (f : frame) (o : outcome) (w w' : World) :
  resume q f o w = Some w' -> jar_change (now w) (jar w) (jar w').
Proof.
  destruct f as [endpoint opts isRetry e | | endpoint opts e | r | p | p | who r];
    simpl.
  - destruct o; intros [= <-]; [apply jar_same|apply jar_cleared]; reflexivity.
  - discriminate.
  - destruct o.
    + destruct (request_jar endpoint opts true w) as [Hj _].
      destruct (request endpoint opts true w) as [r w2]. simpl in *.
      intros [= <-]. apply jar_same. assumption.
    + intros [= <-]. apply jar_cleared. reflexivity.
  - intros [= <-]. apply jar_same. reflexivity.
  - destruct o; intros [= <-]; apply jar_same; reflexivity.
  - destruct o as [[|response]|err]; [discriminate| |].
    + destruct (success response) as [[|]|]; [destruct (data response) as [d|]|..];
        intros [= <-]; try (apply jar_same; reflexivity).
      apply (jar_pair _ _ _ d). reflexivity.
    + intros [= <-]. apply jar_same. reflexivity.
  - destruct o as [[|response]|err]; [discriminate|..]; intros [= <-].
    + destruct (success response) as [[|]|]; [destruct (data response) as [d|]|..];
        try (apply jar_same; reflexivity).
      apply (jar_pair _ _ _ d). reflexivity.
    + apply jar_same. reflexivity.
Qed.

Lemma deliver_jar (q : pid) (res : FetchResult AuthData) (w w' : World) :
  deliver q res w = Some w' -> jar w' = jar w.
Proof.
  unfold deliver.
  destruct (frames w !! q) as [[| endpoint opts isRetry | | | | |]|];
    try discriminate.
  destruct (handle_response endpoint isRetry res).
  - intros [= <-]. reflexivity.
  - intros [= <-]. reflexivity.
  - destruct (ensureValidToken_jar w) as [Hj _].
    destruct (ensureValidToken w) as [e w2]. simpl in *.
    intros [= <-]. assumption.
Qed.

Lemma task_jar (ev : Event) (w w' : World) :
  task ev w = Some w' -> jar_change (now w) (jar w) (jar w').
Proof.
  assert (forall who endpoint payload,
            jar (call_auth who endpoint payload w).2 = jar w) as Hauth.
  { intros who endpoint payload. unfold call_auth.
    open_new_promise w.
    destruct (request_jar endpoint (post (DataBody payload)) false
                (new_promise w).2) as [Hj _].
    destruct (request endpoint _ false (new_promise w).2) as [r w2].
    simpl in *. assumption. }
  destruct ev; cbn [task].
  - destruct (is_auth_endpoint endpoint); [discriminate|].
    intros H. assert (w' = (request endpoint opts false w).2) as -> by congruence.
    apply jar_same, request_jar.
  - intros H. assert (w' = (login payload w).2) as -> by congruence.
    apply jar_same, Hauth.
  - intros H. assert (w' = (register payload w).2) as -> by congruence.
    apply jar_same, Hauth.
  - intros H. assert (w' = (refreshToken w).2) as -> by congruence.
    apply jar_same. unfold refreshToken.
    open_new_promise w.
    destruct (nonempty _); [|reflexivity].
    destruct (isRefreshTokenValid _ _); [|reflexivity].
    destruct (request_jar "/auth/refresh" (post (RefreshBody s)) true
                (new_promise w).2) as [Hj _].
    destruct (request "/auth/refresh" _ true (new_promise w).2) as [r w2].
    simpl in *. assumption.
  - intros H. apply jar_same. eapply deliver_jar. eassumption.
  - discriminate.
  - intros [= <-]. apply jar_same. reflexivity.
  - unfold AuthStore.checkAuth.
    destruct (negb _).
    + destruct (AuthStore.isAuthenticated _); intros [= <-];
        [apply jar_cleared | apply jar_same]; reflexivity.
    + destruct (_ && _); intros [= <-];
        [apply jar_cleared | apply jar_same]; reflexivity.
  - intros [= <-]. apply jar_cleared. reflexivity.
  - intros [= <-]. apply jar_same. reflexivity.
  - intros [= <-]. unfold validateTokens.
    destruct (_ && _).
    + apply jar_same. apply request_jar.
    + destruct (negb _); [apply jar_cleared | apply jar_same]; reflexivity.
Qed.

Lemma step_jar (ev : Event) (w w' : World) :
  step w ev = Some w' -> jar_change (now w) (jar w) (jar w').
Proof.
  unfold step.
  destruct (microtasks w) as [|q rest]; [apply task_jar|].
  destruct ev; try discriminate.
  destruct (frames w !! q) as [f|]; [|discriminate].
  destruct (awaited f) as [p|]; [|discriminate].
  destruct (promises w !! p) as [[ws|o]|]; try discriminate.
  intros H. apply resume_jar in H. exact H.
Qed.


Lemma SessionExpired_no_refresh_token : SessionExpired no_refresh_token.
Proof. split; [reflexivity | left; reflexivity]. Qed.


Lemma isRefreshTokenValid_absent (j : gmap string cookie) (t : Z) :
  nonempty (getRefreshToken j t) = None -> isRefreshTokenValid j t = false.
Proof.
  unfold nonempty, isRefreshTokenValid.
  destruct (getRefreshToken j t) as [v|]; [|reflexivity].
  destruct (String.eqb v ""); [reflexivity | discriminate].
Qed.

(** C5.  With no renewal in progress and a refresh token that is absent
    or invalid, [ensureValidToken] throws at once: its promise is
    rejected with a 401 token error, [fetch] is not called, and neither
    the fields of the client nor the cookies change. *)
Theorem ensureValidToken_without_refresh_token (w : World)
    (Hidle : isRefreshing w = false \/ refreshPromise w = None)
    (Hbad : nonempty (getRefreshToken (jar w) (now w)) = None \/
            isRefreshTokenValid (jar w) (now w) = false) :
  let (e, w') := ensureValidToken w in
  promises w' !! e = Some (Settled (Rejected no_refresh_token)) /\
  SessionExpired no_refresh_token /\
  sent w' = sent w /\
  frames w' !! e = None /\
  microtasks w' = microtasks w /\
  isRefreshing w' = isRefreshing w /\
  refreshPromise w' = refreshPromise w /\
  jar w' = jar w.
Proof.
  assert (isRefreshTokenValid (jar w) (now w) = false) as Hinv.
  { destruct Hbad; auto using isRefreshTokenValid_absent. }
  unfold ensureValidToken.
  open_new_promise w.
  change (isRefreshing (new_promise w).2) with (isRefreshing w).
  change (refreshPromise (new_promise w).2) with (refreshPromise w).
  change (jar (new_promise w).2) with (jar w).
  change (now (new_promise w).2) with (now w).
  rewrite Hinv.
  assert (match nonempty (getRefreshToken (jar w) (now w)) with
          | Some _ | _ =>
              (next_pid w, settle (next_pid w) (Rejected no_refresh_token)
                             (new_promise w).2)
          end = (next_pid w, settle (next_pid w) (Rejected no_refresh_token)
                               (new_promise w).2)) as Hm
    by (destruct (nonempty _); reflexivity).
  assert (let (e, w') := (next_pid w, settle (next_pid w) (Rejected no_refresh_token)
                               (new_promise w).2) in
          promises w' !! e = Some (Settled (Rejected no_refresh_token)) /\
          SessionExpired no_refresh_token /\ sent w' = sent w /\
          frames w' !! e = None /\ microtasks w' = microtasks w /\
          isRefreshing w' = isRefreshing w /\
          refreshPromise w' = refreshPromise w /\ jar w' = jar w) as Hgoal.
  { simpl. rewrite !lookup_insert_eq, lookup_delete_eq.
    rewrite app_nil_r.
    pose proof SessionExpired_no_refresh_token. intuition. }
  destruct (isRefreshing w) eqn:Hi; [destruct (refreshPromise w) eqn:Hr|].
  - destruct Hidle; discriminate.
  - destruct (nonempty _); exact Hgoal.
  - destruct (nonempty _); exact Hgoal.
Qed.

(** C10.  A response outside 2xx whose body is not JSON makes [request]
    throw at once a network error that carries the status.  The turn
    only settles the promise of the request: no activation is created
    (neither [ensureValidToken] nor a retry is called), [fetch] is not
    called, and the fields of the client and the cookies are unchanged.
    This holds for status 401 as for any other. *)
Theorem non_json_error_body_fails_at_once (w : World) (q : pid)
    (endpoint : string) (opts : Options) (isRetry : bool)
    (status : Z) (statusText m : string)
    (Hq : frames w !! q = Some (ReqAwaitFetch endpoint opts isRetry))
    (Hstatus : ok status = false) :
  exists e w',
    deliver q (Response status statusText (NotJson m)) w = Some w' /\
    w' = settle q (Rejected e) w /\
    code e = ErrorCode.NETWORK_ERROR /\ statusCode e = status /\
    promises w' !! q = Some (Settled (Rejected e)) /\
    next_pid w' = next_pid w /\ sent w' = sent w /\
    isRefreshing w' = isRefreshing w /\
    refreshPromise w' = refreshPromise w /\ jar w' = jar w.
Proof.
  unfold deliver. rewrite Hq. simpl. rewrite Hstatus. simpl.
  eexists _, _. split; [reflexivity|]. split; [reflexivity|].
  simpl. rewrite lookup_insert_eq. repeat split; reflexivity.
Qed.


(** What the two cookies read after a pair has been stored. *)
Lemma get_tokens_after_pair (d : AuthData) (j : gmap string cookie) (t : Z) :
  let j' := setRefreshToken (Types.refreshToken d)
              (setAuthToken (accessToken d) j t) t in
  getAuthToken j' t = Some (accessToken d) /\
  getRefreshToken j' t = Some (Types.refreshToken d).
Proof.
  unfold getAuthToken, getRefreshToken, getCookie, setRefreshToken,
    setAuthToken, setCookie. simpl.
  rewrite lookup_insert_eq.
  rewrite lookup_insert_ne by (symmetry; apply AUTH_REFRESH_distinct).
  rewrite lookup_insert_eq. simpl.
  split.
  - destruct (Z.ltb_spec t (t + 60 * 15 * 1000)); [reflexivity | lia].
  - destruct (Z.ltb_spec t (t + 60 * 60 * 24 * 90 * 1000)); [reflexivity | lia].
Qed.

(** C9.  In every turn the jar is left as it was, or loses both tokens,
    or receives the access token and the refresh token of one and the
    same response, after which both are readable.  A successful
    renewal, login, registration or manual refresh (a response with
    [success: true] and a payload) is of the third kind. *)
Theorem tokens_are_stored_as_a_pair (w w' : World) (ev : Event)
    (Hstep : step w ev = Some w') :
  (jar w' = jar w \/
   jar w' = removeAuthTokens (jar w) \/
   exists d,
     jar w' = setRefreshToken (Types.refreshToken d)
                (setAuthToken (accessToken d) (jar w) (now w)) (now w) /\
     getAuthToken (jar w') (now w) = Some (accessToken d) /\
     getRefreshToken (jar w') (now w) = Some (Types.refreshToken d)) /\
  (forall q rest f p response d,
     ev = Microtask -> microtasks w = q :: rest ->
     frames w !! q = Some f -> awaited f = Some p ->
     (f = EvtAwaitOwn p \/ exists who, f = StoreTokensAwait who p) ->
     promises w !! p = Some (Settled (Fulfilled (VResponse response))) ->
     success response = Some true -> data response = Some d ->
     jar w' = setRefreshToken (Types.refreshToken d)
                (setAuthToken (accessToken d) (jar w) (now w)) (now w)).
Proof.
  split.
  - destruct (step_jar _ _ _ Hstep) as [H|H|d H]; auto.
    right; right. exists d. split; [assumption|]. rewrite H.
    apply get_tokens_after_pair.
  - intros q rest f p response d -> Hm Hf Hp Hkind Hpp Hs Hd.
    unfold step in Hstep. rewrite Hm, Hf, Hp, Hpp in Hstep.
    destruct Hkind as [->|[who ->]]; simpl in Hstep; rewrite Hs, Hd in Hstep;
      injection Hstep as <-; reflexivity.
Qed.

End MachineFacts.

(** ** At most one renewal at a time *)

Section InFlight.
Import Cookies Types ApiClient.


Lemma renewals_in_flight_spec (w : World) (q : pid) :
  q ∈ renewals_in_flight w <->
  exists opts r, frames w !! q = Some (ReqAwaitFetch "/auth/refresh" opts r).
Proof.
  unfold renewals_in_flight. rewrite list_elem_of_fmap. split.
  - intros ([q' f] & -> & H). apply list_elem_of_filter in H as [Hf H].
    apply elem_of_map_to_list in H. simpl in *.
    destruct f as [| endpoint opts r | | | | |]; try discriminate.
    apply String.eqb_eq in Hf as ->. eauto.
  - intros (opts & r & H).
    exists (q, ReqAwaitFetch "/auth/refresh" opts r). split; [reflexivity|].
    apply list_elem_of_filter. split; [reflexivity|].
    apply elem_of_map_to_list. exact H.
Qed.


End InFlight.

Section Coalescing.
Context {rt : JsRuntime}.
Import Cookies Types ApiClient.

Lemma extends_refl w : extends w w.
Proof. split; auto. Qed.

Lemma extends_trans w1 w2 w3 : extends w1 w2 -> extends w2 w3 -> extends w1 w3.
Proof.
  intros [n1 f1 u1] [n2 f2 u2]. split.
  - lia.
  - intros q Hq. rewrite f2 by lia. auto.
  - intros q Hq Hu. apply u2; [lia|]. auto.
Qed.









Lemma extends_new_promise (w0 w : World) :
  extends w0 w -> extends w0 (new_promise w).2.
Proof.
  intros [Hn Hf Hu]. split; unfold unsettled in *; simpl; auto.
  intros q Hq H o. rewrite lookup_insert_ne by lia. apply Hu; auto.
Qed.







Lemma not_auth_endpoint_refresh (endpoint : string) :
  is_auth_endpoint endpoint = false -> endpoint <> "/auth/refresh".
Proof. intros H ->. discriminate. Qed.



(** Only a 401 with a JSON body, on a first attempt at an endpoint
    other than the three of authentication, leads to a renewal. *)
Lemma handle_response_RenewAndRetry {T} (endpoint : string) (isRetry : bool)
    (res : FetchResult T) :
  handle_response endpoint isRetry res = RenewAndRetry ->
  is_auth_endpoint endpoint = false /\ isRetry = false /\
  exists statusText r, res = Response 401 statusText (JsonBody r).
Proof.
  unfold handle_response, is_auth_endpoint, throw_envelope.
  destruct res as [[m|]|status statusText [r|m]]; try discriminate.
  - destruct (ok status); simpl.
    + destruct (success r) as [[|]|]; simpl; try discriminate;
        destruct (error r); discriminate.
    + destruct (Z.eqb_spec status 401) as [->|]; simpl;
        [|destruct (error r); discriminate].
      destruct isRetry; simpl; [destruct (error r); discriminate|].
      destruct (String.eqb endpoint "/auth/refresh"); simpl;
        [destruct (error r); discriminate|].
      destruct (String.eqb endpoint "/auth/login"); simpl;
        [destruct (error r); discriminate|].
      destruct (String.eqb endpoint "/auth/register"); simpl;
        [destruct (error r); discriminate|].
      eauto.
  - destruct (ok status); discriminate.
Qed.







End Coalescing.

Section Coalesced.
Context {rt : JsRuntime}.
Import Cookies Types ApiClient.


(** A call of [ensureValidToken] during a renewal: no [fetch], no
    change to the client or the jar; the caller waits on the promise of
    the renewal. *)
Lemma ensureValidToken_joins (w : World) (p : pid) :
  isRefreshing w = true -> refreshPromise w = Some p ->
  (ensureValidToken w).1 = next_pid w /\
  (ensureValidToken w).2
    = await (next_pid w) p (EvtAwaitInFlight p) (new_promise w).2 /\
  sent (ensureValidToken w).2 = sent w /\
  frames (ensureValidToken w).2
    = <[next_pid w := EvtAwaitInFlight p]> (frames w).
Proof.
  intros Hi Hr. unfold ensureValidToken.
  open_new_promise w.
  change (isRefreshing (new_promise w).2) with (isRefreshing w).
  change (refreshPromise (new_promise w).2) with (refreshPromise w).
  rewrite Hi, Hr. repeat split.
Qed.


End Coalesced.


(** The two callers of the scenario lead to one call of [fetch]. *)
Example two_callers_one_fetch :
  match ApiClient.run (rt := Host.runtime) Scenario.w0 Scenario.two_callers with
  | Some w =>
      renewals_in_flight w = [2%nat] /\
      map ApiClient.url (ApiClient.sent w) = ["/auth/refresh"] /\
      ApiClient.frames w !! 1%nat = Some (ApiClient.EvtAwaitOwn 2%nat) /\
      ApiClient.frames w !! 4%nat = Some (ApiClient.EvtAwaitInFlight 2%nat)
  | None => False
  end.
Proof. vm_compute. repeat split. Qed.


(** C2 fails on the code.  Two callers share one renewal; the endpoint
    answers 200 with [success: false] and no error payload.  The caller
    that started the renewal (activation 1) is rejected with
    TOKEN_EXPIRED, while the caller that joined it (activation 4) is
    fulfilled.  At the gateway, the first request (0) then fails with
    the session-expired error and removes the cookies, while the second
    (3) goes on and calls [fetch] without credentials. *)
Theorem waiter_succeeds_where_initiator_fails :
  match ApiClient.run (rt := Host.runtime) Scenario.w0
          (Scenario.two_callers
           ++ [ApiClient.Deliver 2%nat Scenario.refresh_refused;
               ApiClient.Microtask; ApiClient.Microtask;
               ApiClient.Microtask; ApiClient.Microtask]) with
  | Some w =>
      ApiClient.promises w !! 1%nat
        = Some (ApiClient.Settled (ApiClient.Rejected ApiClient.refresh_failed)) /\
      ApiClient.promises w !! 4%nat
        = Some (ApiClient.Settled (ApiClient.Fulfilled ApiClient.VVoid)) /\
      ApiClient.promises w !! 0%nat
        = Some (ApiClient.Settled (ApiClient.Rejected ApiClient.session_expired)) /\
      ApiClient.frames w !! 3%nat
        = Some (ApiClient.ReqAwaitFetch "/messages" ApiClient.no_options false) /\
      ApiClient.sent w
        = [ {| ApiClient.url := "/auth/refresh"; ApiClient.authorization := None;
               ApiClient.options :=
                 ApiClient.post (ApiClient.RefreshBody Host.token_exp_9000) |};
            {| ApiClient.url := "/messages"; ApiClient.authorization := None;
               ApiClient.options := ApiClient.no_options |} ]
  | None => False
  end.
Proof. vm_compute. repeat split. Qed.

Section WaiterFacts.
Context {rt : JsRuntime}.
Import Cookies Types ApiClient.

(** The same divergence for any fulfilled renewal request whose
    response is not a success with a payload: the owner throws, a
    waiter returns. *)
Lemma waiter_ignores_the_response (q q' p : pid) (response : ApiResponse AuthData)
    (w w' : World) :
  success response <> Some true \/ data response = None ->
  resume q (EvtAwaitOwn p) (Fulfilled (VResponse response)) w
    = Some (settle q (Rejected refresh_failed) (finally_reset w)) /\
  resume q' (EvtAwaitInFlight p) (Fulfilled (VResponse response)) w'
    = Some (settle q' (Fulfilled VVoid) w').
Proof.
  intros H. split; [|reflexivity]. simpl.
  destruct (success response) as [[|]|]; try reflexivity.
  destruct (data response); [|reflexivity].
  destruct H; congruence.
Qed.

End WaiterFacts.

(** ** Witnesses and scenarios *)

Lemma ensureValidToken_without_refresh_token_witness :
  (let (e, w') := ApiClient.ensureValidToken (rt := Host.runtime) Scenario.w_empty in
   ApiClient.promises w' !! e
     = Some (ApiClient.Settled (ApiClient.Rejected ApiClient.no_refresh_token)) /\
   ApiClient.sent w' = []) /\
  (let (e, w') := ApiClient.ensureValidToken (rt := Host.runtime) Scenario.w_expired in
   ApiClient.promises w' !! e
     = Some (ApiClient.Settled (ApiClient.Rejected ApiClient.no_refresh_token)) /\
   ApiClient.sent w' = []).
Proof.
  split.
  - pose proof (ensureValidToken_without_refresh_token (rt := Host.runtime)
                  Scenario.w_empty (or_introl eq_refl) (or_introl eq_refl)) as H.
    destruct (ApiClient.ensureValidToken Scenario.w_empty) as [e w'].
    destruct H as (H1 & _ & H2 & _). split; [exact H1 | exact H2].
  - assert (Cookies.isRefreshTokenValid (rt := Host.runtime)
              (ApiClient.jar Scenario.w_expired)
              (ApiClient.now Scenario.w_expired) = false) as Hbad
      by (vm_compute; reflexivity).
    pose proof (ensureValidToken_without_refresh_token (rt := Host.runtime)
                  Scenario.w_expired (or_introl eq_refl) (or_intror Hbad)) as H.
    destruct (ApiClient.ensureValidToken Scenario.w_expired) as [e w'].
    destruct H as (H1 & _ & H2 & _). split; [exact H1 | exact H2].
Defined.

Lemma non_json_error_body_fails_at_once_witness :
  exists e w',
    ApiClient.deliver (rt := Host.runtime) 0%nat Scenario.unauthorized_html
      Scenario.w1_waiting = Some w' /\
    ApiClient.code e = ErrorCode.NETWORK_ERROR /\
    ApiClient.statusCode e = 401 /\
    ApiClient.promises w' !! 0%nat
      = Some (ApiClient.Settled (ApiClient.Rejected e)) /\
    ApiClient.next_pid w' = ApiClient.next_pid Scenario.w1_waiting /\
    ApiClient.sent w' = ApiClient.sent Scenario.w1_waiting.
Proof.
  assert (ApiClient.frames Scenario.w1_waiting !! 0%nat
          = Some (ApiClient.ReqAwaitFetch "/devices" ApiClient.no_options false))
    as Hq by (vm_compute; reflexivity).
  destruct (non_json_error_body_fails_at_once (rt := Host.runtime)
              Scenario.w1_waiting 0%nat "/devices" ApiClient.no_options false
              401 "Unauthorized" "Unexpected token < in JSON" Hq eq_refl)
    as (e & w' & Hd & _ & Hc & Hs & Hp & Hn & Hsent & _).
  exists e, w'. repeat split; assumption.
Defined.



Lemma tokens_are_stored_as_a_pair_witness :
  exists w w',
    ApiClient.run (rt := Host.runtime) Scenario.w0
      [ApiClient.Call "/devices" ApiClient.no_options;
       ApiClient.Deliver 2%nat Scenario.refresh_granted] = Some w /\
    ApiClient.step (rt := Host.runtime) w ApiClient.Microtask = Some w' /\
    (ApiClient.jar w' = ApiClient.jar w \/
     ApiClient.jar w' = Cookies.removeAuthTokens (ApiClient.jar w) \/
     exists d,
       ApiClient.jar w'
         = Cookies.setRefreshToken (Types.refreshToken d)
             (Cookies.setAuthToken (Types.accessToken d) (ApiClient.jar w)
                (ApiClient.now w)) (ApiClient.now w) /\
       Cookies.getAuthToken (ApiClient.jar w') (ApiClient.now w)
         = Some (Types.accessToken d) /\
       Cookies.getRefreshToken (ApiClient.jar w') (ApiClient.now w)
         = Some (Types.refreshToken d)).
Proof.
  eexists. eexists. split; [vm_compute; reflexivity|].
  split; [vm_compute; reflexivity|].
  match goal with
  | |- ApiClient.jar ?w' = ApiClient.jar ?w \/ _ =>
      assert (ApiClient.step (rt := Host.runtime) w ApiClient.Microtask = Some w')
        as Hstep by (vm_compute; reflexivity);
      exact (proj1 (tokens_are_stored_as_a_pair (rt := Host.runtime) w w'
                      ApiClient.Microtask Hstep))
  end.
Defined.

(** The access token has expired and the refresh token is good: a data
    call starts one renewal; once it is granted, the pair is stored and
    the call goes out with the new access token. *)
Example renewal_then_call :
  match ApiClient.run (rt := Host.runtime) Scenario.w0
          [ApiClient.Call "/devices" ApiClient.no_options;
           ApiClient.Deliver 2%nat Scenario.refresh_granted;
           ApiClient.Microtask; ApiClient.Microtask] with
  | Some w =>
      map (fun c => (ApiClient.url c, ApiClient.authorization c)) (ApiClient.sent w)
        = [("/auth/refresh", None); ("/devices", Some Host.token_exp_9000)] /\
      ApiClient.isRefreshing w = false /\ ApiClient.refreshPromise w = None /\
      Cookies.getAuthToken (ApiClient.jar w) (ApiClient.now w)
        = Some Host.token_exp_9000
  | None => False
  end.
Proof. vm_compute. repeat split. Qed.

(** The refresh token has expired: a data call fails with the
    session-expired error and [fetch] is never called. *)
Example expired_refresh_token_fails_the_call :
  match ApiClient.run (rt := Host.runtime) Scenario.w_expired
          [ApiClient.Call "/devices" ApiClient.no_options; ApiClient.Microtask] with
  | Some w =>
      ApiClient.promises w !! 0%nat
        = Some (ApiClient.Settled (ApiClient.Rejected ApiClient.session_expired)) /\
      ApiClient.sent w = [] /\
      Cookies.getRefreshToken (ApiClient.jar w) (ApiClient.now w) = None
  | None => False
  end.
Proof. vm_compute. repeat split. Qed.

(** A 401 with a JSON body on a token that looked valid: one renewal,
    one retry; the 401 of the retry reaches the caller. *)
Example unauthorized_twice :
  match ApiClient.run (rt := Host.runtime) Scenario.w1
          [ApiClient.Call "/devices" ApiClient.no_options;
           ApiClient.Deliver 0%nat Scenario.unauthorized;
           ApiClient.Deliver 2%nat Scenario.refresh_granted;
           ApiClient.Microtask; ApiClient.Microtask;
           ApiClient.Deliver 3%nat Scenario.unauthorized;
           ApiClient.Microtask] with
  | Some w =>
      map ApiClient.url (ApiClient.sent w)
        = ["/devices"; "/auth/refresh"; "/devices"] /\
      ApiClient.promises w !! 0%nat
        = Some (ApiClient.Settled (ApiClient.Rejected
                  {| ApiClient.code := ErrorCode.UNAUTHORIZED;
                     ApiClient.message := "token rejected";
                     ApiClient.statusCode := 401;
                     ApiClient.details := None |})) /\
      ApiClient.frames w = ∅
  | None => False
  end.
Proof. vm_compute. repeat split. Qed.

(** * Further properties *)

(** The names of the two cookies differ. *)
Ltac distinct_cookies :=
  first [ apply AUTH_REFRESH_distinct
        | apply not_eq_sym, AUTH_REFRESH_distinct ].

(** ** The token store *)

Section StoreRoundTrips.
Import Cookies.

(** X1.  A token written at [t0] is read back until its [maxAge] has
    passed, and is absent from then on: 15 minutes for the access
    token, 90 days for the refresh token. *)
Theorem tokens_are_read_back_until_they_expire (tok : string)
    (jar : gmap string cookie) (t0 t : Z) :
  getAuthToken (setAuthToken tok jar t0) t
    = (if t <? t0 + 900000 then Some tok else None) /\
  getRefreshToken (setRefreshToken tok jar t0) t
    = (if t <? t0 + 7776000000 then Some tok else None).
Proof.
  unfold getAuthToken, getRefreshToken, getCookie, setAuthToken,
    setRefreshToken, setCookie.
  rewrite !lookup_insert_eq. cbn [cookie_expires cookie_value].
  replace (t0 + 60 * 15 * 1000) with (t0 + 900000) by lia.
  replace (t0 + 60 * 60 * 24 * 90 * 1000) with (t0 + 7776000000) by lia.
  split; reflexivity.
Qed.

(** X2.  The two cookies are independent slots: writing one leaves the
    other as it reads; and a second write of a token replaces the first,
    with the lifetime counted from the second write. *)
Theorem token_slots_are_independent (a b : string)
    (jar : gmap string cookie) (t0 t1 t : Z) :
  getRefreshToken (setAuthToken a jar t0) t = getRefreshToken jar t /\
  getAuthToken (setRefreshToken a jar t0) t = getAuthToken jar t /\
  setAuthToken b (setAuthToken a jar t0) t1 = setAuthToken b jar t1 /\
  setRefreshToken b (setRefreshToken a jar t0) t1 = setRefreshToken b jar t1 /\
  setRefreshToken b (setAuthToken a jar t0) t1
    = setAuthToken a (setRefreshToken b jar t1) t0.
Proof.
  unfold getAuthToken, getRefreshToken, getCookie, setAuthToken,
    setRefreshToken, setCookie.
  repeat split.
  - rewrite lookup_insert_ne by distinct_cookies. reflexivity.
  - rewrite lookup_insert_ne by distinct_cookies. reflexivity.
  - apply insert_insert_eq.
  - apply insert_insert_eq.
  - apply insert_insert_ne. distinct_cookies.
Qed.

End StoreRoundTrips.

(** ** The shape of tokens *)

Section TokenShape.
Context {rt : JsRuntime}.
Import Cookies.

Lemma split_dot_nonempty (s : string) : split_dot s <> [].
Proof.
  destruct s as [|c s]; simpl; [discriminate|].
  destruct (Ascii.eqb c "."); [discriminate|].
  destruct (split_dot s); discriminate.
Qed.

Lemma split_dot_no_dot (s : string) : has_dot s = false -> split_dot s = [s].
Proof.
  induction s as [|c s IH]; simpl; [reflexivity|].
  destruct (Ascii.eqb c "."); simpl; [discriminate|].
  intros H. rewrite (IH H). reflexivity.
Qed.

Lemma split_dot_segment (h rest : string) :
  has_dot h = false ->
  split_dot (h ++ String "." rest) = h :: split_dot rest.
Proof.
  induction h as [|c h IH]; simpl; [reflexivity|].
  destruct (Ascii.eqb c "."); simpl; [discriminate|].
  intros H. rewrite (IH H). reflexivity.
Qed.

(** The segment that [decodeJWTPayload] reads. *)
Lemma payload_segment (h p s : string) :
  has_dot h = false -> has_dot p = false ->
  nth_error (split_dot (h ++ String "." (p ++ String "." s))) 1 = Some p /\
  nth_error (split_dot (h ++ String "." p)) 1 = Some p.
Proof.
  intros Hh Hp.
  rewrite (split_dot_segment h (p ++ String "." s) Hh).
  rewrite (split_dot_segment p s Hp).
  rewrite (split_dot_segment h p Hh).
  rewrite (split_dot_no_dot p Hp). split; reflexivity.
Qed.

(** X3.  A token without a dot has no payload segment: it decodes to
    [null], so as an access token it is always expired or expiring, and
    as a refresh token it is never valid. *)
Theorem opaque_token_is_never_good (t : string) (Ht : has_dot t = false) :
  decodeJWTPayload t = JNull /\
  (forall now, isTokenExpiredOrExpiringSoon (Some t) now = true) /\
  (forall jar now, getRefreshToken jar now = Some t ->
     isRefreshTokenValid jar now = false).
Proof.
  assert (decodeJWTPayload t = JNull) as Hd.
  { unfold decodeJWTPayload. rewrite split_dot_no_dot by assumption.
    reflexivity. }
  split; [exact Hd|]. split.
  - intros now. unfold isTokenExpiredOrExpiringSoon. rewrite Hd.
    destruct (String.eqb t ""); reflexivity.
  - intros jar now Hj. unfold isRefreshTokenValid. rewrite Hj, Hd.
    destruct (String.eqb t ""); reflexivity.
Qed.

(** X4.  Only the second segment of a token is read.  Two tokens with
    the same payload segment decode alike whatever their header and
    whatever follows the payload, a signature or nothing: the verdicts
    of the inspector do not depend on the signature. *)
Theorem only_the_payload_segment_is_read (h h' p s s' : string)
    (Hh : has_dot h = false) (Hh' : has_dot h' = false)
    (Hp : has_dot p = false) :
  decodeJWTPayload (h ++ String "." (p ++ String "." s))
    = decodeJWTPayload (h' ++ String "." (p ++ String "." s')) /\
  decodeJWTPayload (h ++ String "." (p ++ String "." s))
    = decodeJWTPayload (h' ++ String "." p) /\
  (forall now,
     isTokenExpiredOrExpiringSoon (Some (h ++ String "." (p ++ String "." s))) now
     = isTokenExpiredOrExpiringSoon (Some (h' ++ String "." (p ++ String "." s'))) now).
Proof.
  destruct (payload_segment h p s Hh Hp) as [H1 _].
  destruct (payload_segment h' p s' Hh' Hp) as [H2 H3].
  assert (decodeJWTPayload (h ++ String "." (p ++ String "." s))
          = decodeJWTPayload (h' ++ String "." (p ++ String "." s'))) as Heq.
  { unfold decodeJWTPayload. rewrite H1, H2. reflexivity. }
  split; [exact Heq|]. split.
  - unfold decodeJWTPayload. rewrite H1, H3. reflexivity.
  - intros now. unfold isTokenExpiredOrExpiringSoon. rewrite Heq.
    assert (forall a b, String.eqb (a ++ String "." b) "" = false) as Hne.
    { intros a b. destruct a; reflexivity. }
    rewrite !Hne. reflexivity.
Qed.




Lemma percent_decode_char (c : ascii) (rest : string) :
  percent_decode (percent_encode_char c ++ rest) = String c (percent_decode rest).
Proof.
  destruct c as [[] [] [] [] [] [] [] []]; reflexivity.
Qed.

(** X6.  The escaping of the decoded bytes loses nothing: every byte
    becomes three characters, a percent sign and two hexadecimal
    digits, from which the byte is recovered; so two different byte
    strings are never escaped alike. *)
Theorem percent_encode_is_invertible (s s' : string) :
  percent_decode (percent_encode s) = s /\
  String.length (percent_encode s) = (3 * String.length s)%nat /\
  (percent_encode s = percent_encode s' -> s = s').
Proof.
  assert (forall u, percent_decode (percent_encode u) = u) as Hinv.
  { induction u as [|c u IH]; [reflexivity|].
    change (percent_encode (String c u))
      with (percent_encode_char c ++ percent_encode u)%string.
    rewrite percent_decode_char, IH. reflexivity. }
  split; [apply Hinv|]. split.
  - induction s as [|c s IH]; [reflexivity|].
    change (String.length (percent_encode (String c s)))
      with (S (S (S (String.length (percent_encode s))))).
    rewrite IH. simpl. lia.
  - intros H. rewrite <- (Hinv s), <- (Hinv s'), H. reflexivity.
Qed.

Lemma currentTime_mono (now now' : Z) :
  now <= now' -> currentTime now <= currentTime now'.
Proof. intros H. unfold currentTime. apply Z.div_le_mono; lia. Qed.

(** X7.  Time only makes tokens worse.  An access token found expired
    or expiring stays so at every later instant, and a refresh token
    found valid was valid at every earlier instant, whatever the host
    decodes. *)
Theorem verdicts_are_monotone_in_time (now now' : Z) (Hle : now <= now') :
  (forall token, isTokenExpiredOrExpiringSoon token now = true ->
     isTokenExpiredOrExpiringSoon token now' = true) /\
  (forall jar, isRefreshTokenValid jar now' = true ->
     isRefreshTokenValid jar now = true).
Proof.
  pose proof (currentTime_mono now now' Hle) as Hc. split.
  - intros [t|]; [|reflexivity]. unfold isTokenExpiredOrExpiringSoon.
    destruct (String.eqb t ""); [reflexivity|].
    destruct (exp_claim (decodeJWTPayload t)) as [e|]; [|reflexivity].
    unfold js_le. destruct (to_number e) as [x|]; [|discriminate].
    intros H. apply Z.leb_le in H. apply Z.leb_le. lia.
  - intros jar. unfold isRefreshTokenValid, getRefreshToken, getCookie.
    destruct (jar !! REFRESH_TOKEN_COOKIE) as [c|]; [|discriminate].
    destruct (Z.ltb_spec now' (cookie_expires c)); [|discriminate].
    destruct (Z.ltb_spec now (cookie_expires c)); [|lia].
    destruct (String.eqb (cookie_value c) ""); [discriminate|].
    destruct (exp_claim (decodeJWTPayload (cookie_value c))) as [e|];
      [|discriminate].
    unfold js_gt. destruct (to_number e) as [x|]; [|discriminate].
    intros H'. apply Z.ltb_lt in H'. apply Z.ltb_lt. lia.
Qed.

(** X8.  An expiration claim that is present but is not a number (its
    conversion gives NaN) makes both comparisons false: the access
    token is then never found expiring, whatever the time, while the
    same token as a refresh token is never valid. *)
Theorem non_numeric_exp_never_expires (t : string) (e : json)
    (He : get_prop (decodeJWTPayload t) "exp" = Some e)
    (Htruthy : truthy e = true)
    (Hnan : to_number e = None) :
  (forall now, isTokenExpiredOrExpiringSoon (Some t) now = false) /\
  (forall jar now, getRefreshToken jar now = Some t ->
     isRefreshTokenValid jar now = false).
Proof.
  assert (exp_claim (decodeJWTPayload t) = Some e) as Hc
    by (apply exp_claim_Some; auto).
  assert (String.eqb t "" = false) as Hne.
  { destruct (String.eqb_spec t "") as [->|]; [|reflexivity].
    rewrite decodeJWTPayload_empty in He. discriminate. }
  split.
  - intros now. unfold isTokenExpiredOrExpiringSoon, js_le.
    rewrite Hne, Hc, Hnan. reflexivity.
  - intros jar now Hj. unfold isRefreshTokenValid, js_gt.
    rewrite Hj, Hne, Hc, Hnan. reflexivity.
Qed.

End TokenShape.

Lemma opaque_token_is_never_good_witness :
  Cookies.isTokenExpiredOrExpiringSoon (rt := Host.runtime)
    (Some "0123456789abcdef") 0 = true.
Proof.
  apply (proj1 (proj2 (opaque_token_is_never_good (rt := Host.runtime)
                         "0123456789abcdef" eq_refl))).
Defined.

Lemma only_the_payload_segment_is_read_witness :
  Cookies.decodeJWTPayload (rt := Host.runtime) "h.eyJleHAiOjIwMDB9.s"
  = Cookies.decodeJWTPayload (rt := Host.runtime) "other.eyJleHAiOjIwMDB9.forged".
Proof.
  apply (proj1 (only_the_payload_segment_is_read (rt := Host.runtime)
                  "h" "other" "eyJleHAiOjIwMDB9" "s" "forged"
                  eq_refl eq_refl eq_refl)).
Defined.


Lemma verdicts_are_monotone_in_time_witness :
  Cookies.isTokenExpiredOrExpiringSoon (rt := Host.runtime)
    (Some Host.token_exp_1120) 2000000 = true.
Proof.
  assert (1000000 <= 2000000) as Hle by lia.
  apply (proj1 (verdicts_are_monotone_in_time (rt := Host.runtime)
                  1000000 2000000 Hle)).
  reflexivity.
Defined.

Lemma non_numeric_exp_never_expires_witness :
  Cookies.isTokenExpiredOrExpiringSoon
    (rt := host_with_payload (JObj [("exp", JStr "never")]))
    (Some "h.p.s") 4102444800000 = false.
Proof.
  apply (proj1 (non_numeric_exp_never_expires
                  (rt := host_with_payload (JObj [("exp", JStr "never")]))
                  "h.p.s" (JStr "never") eq_refl eq_refl eq_refl)).
Defined.

(** ** The store *)

Section StoreMore.
Context {rt : JsRuntime}.
Import Cookies AuthStore.

Lemma removeAuthTokens_idempotent (jar : gmap string cookie) :
  removeAuthTokens (removeAuthTokens jar) = removeAuthTokens jar.
Proof.
  unfold removeAuthTokens, deleteCookie.
  apply map_eq. intros k.
  destruct (decide (k = REFRESH_TOKEN_COOKIE)) as [->|Hr].
  { rewrite !lookup_delete_eq. reflexivity. }
  rewrite !(lookup_delete_ne _ REFRESH_TOKEN_COOKIE) by auto.
  destruct (decide (k = AUTH_TOKEN_COOKIE)) as [->|Ha].
  { rewrite !lookup_delete_eq. reflexivity. }
  rewrite !(lookup_delete_ne _ AUTH_TOKEN_COOKIE) by auto.
  rewrite !(lookup_delete_ne _ REFRESH_TOKEN_COOKIE) by auto.
  rewrite !(lookup_delete_ne _ AUTH_TOKEN_COOKIE) by auto.
  reflexivity.
Qed.

Lemma isRefreshTokenValid_removeAuthTokens (jar : gmap string cookie) (now : Z) :
  isRefreshTokenValid (removeAuthTokens jar) now = false.
Proof.
  unfold isRefreshTokenValid.
  rewrite getRefreshToken_removeAuthTokens. reflexivity.
Qed.

(** X9.  After [clearAuth] both tokens are absent at every instant, the
    store is not authenticated, [checkAuth] returns false and changes
    nothing, and clearing again changes nothing. *)
Theorem clearAuth_ends_the_session (st : AuthState)
    (jar : gmap string cookie) (now : Z) :
  let (st', jar') := clearAuth st jar in
  getAuthToken jar' now = None /\
  getRefreshToken jar' now = None /\
  isAuthenticated st' = false /\
  user st' = None /\ organization st' = None /\
  checkAuth st' jar' now = (false, (st', jar')) /\
  clearAuth st' jar' = (st', jar').
Proof.
  unfold clearAuth.
  rewrite getAuthToken_removeAuthTokens, getRefreshToken_removeAuthTokens.
  repeat split.
  - unfold checkAuth. rewrite isRefreshTokenValid_removeAuthTokens.
    reflexivity.
  - simpl. rewrite removeAuthTokens_idempotent. reflexivity.
Qed.

(** X10.  [checkAuth] can be called again at the same instant: the
    second call returns what the first returned and leaves the store
    and the jar as the first left them. *)
Theorem checkAuth_is_idempotent (st : AuthState)
    (jar : gmap string cookie) (now : Z) :
  let '(result, (st', jar')) := checkAuth st jar now in
  checkAuth st' jar' now = (result, (st', jar')).
Proof.
  unfold checkAuth.
  destruct (isRefreshTokenValid jar now) eqn:Hv; simpl.
  - rewrite orb_true_r. simpl. rewrite Hv. simpl.
    rewrite orb_true_r. reflexivity.
  - destruct (isAuthenticated st) eqn:Ha; simpl.
    + rewrite isRefreshTokenValid_removeAuthTokens. reflexivity.
    + rewrite Hv, Ha. reflexivity.
Qed.

End StoreMore.

(** ** The gateway: what a response can lead to *)

Section GatewayMore.
Context {rt : JsRuntime}.
Import Cookies Types ApiClient.

(** X11.  [request] returns a body only for a 2xx response whose JSON
    body has a boolean [success] and is not a failure with an error
    payload; no body of a response outside 2xx is ever returned. *)
Theorem only_2xx_bodies_are_returned {T : Type} (endpoint : string)
    (isRetry : bool) (res : FetchResult T) (r : ApiResponse T) :
  handle_response endpoint isRetry res = Return r <->
  exists status statusText,
    res = Response status statusText (JsonBody r) /\
    ok status = true /\
    (success r = Some true \/ (success r = Some false /\ error r = None)).
Proof.
  unfold handle_response, throw_envelope. split.
  - destruct res as [[m|]|status statusText [body|m]]; try discriminate.
    + destruct (ok status) eqn:Hok; simpl.
      * destruct (success body) as [[|]|] eqn:Hs; simpl; try discriminate.
        -- intros [= <-]. eauto 6.
        -- destruct (error body) eqn:He; [discriminate|].
           intros [= <-]. eauto 8.
      * destruct (_ && _); [discriminate|].
        destruct (error body); discriminate.
    + destruct (ok status); discriminate.
  - intros (status & statusText & -> & Hok & Hs). rewrite Hok. simpl.
    destruct Hs as [->|[-> ->]]; reflexivity.
Qed.



End GatewayMore.

(** ** The retry policy *)

Section RetryFacts.
Import ApiClient QueryRetry.

(** X14.  A query is never retried once it has failed three times, and
    never when the message of its error contains the character 4.  The
    status of the error is not looked at: the three 401 errors with
    which the client ends a session have no 4 in their messages, so a
    query that failed with one of them is retried until it has failed
    three times. *)
Theorem retry_policy (failureCount : Z) (error : option string) :
  (3 <= failureCount -> retry failureCount error = false) /\
  (forall m1 m2, retry failureCount (Some (m1 ++ String "4" m2)) = false) /\
  (forall e, e = session_expired \/ e = no_refresh_token \/ e = refresh_failed ->
     statusCode e = 401 /\
     retry failureCount (Some (message e)) = (failureCount <? 3)).
Proof.
  split; [|split].
  - intros H. unfold retry.
    destruct (Z.ltb_spec failureCount 3); [lia|].
    destruct error as [m|]; [destruct (includes m "4")|]; reflexivity.
  - intros m1 m2. unfold retry.
    assert (includes (m1 ++ String "4" m2) "4" = true) as ->; [|reflexivity].
    unfold includes.
    destruct (index 0 "4" (m1 ++ String "4" m2)) eqn:Hi; [reflexivity|].
    exfalso.
    apply (index_correct3 0 (String.length m1) "4" (m1 ++ String "4" m2)) in Hi.
    + apply Hi. clear Hi.
      induction m1 as [|c m1 IH]; simpl.
      * destruct m2; reflexivity.
      * exact IH.
    + discriminate.
    + lia.
  - intros e [He|[He|He]]; subst e; split; reflexivity.
Qed.

End RetryFacts.

Lemma retry_policy_witness :
  QueryRetry.retry 3 (Some "Network error occurred") = false.
Proof.
  assert (3 <= 3) as H by lia.
  apply (proj1 (retry_policy 3 (Some "Network error occurred")) H).
Defined.

(** ** The route guard *)

Section GuardFacts.
Context {rt : JsRuntime}.
Import Cookies Middleware.

(** X15.  A redirect of the guard settles in one hop: the page it sends
    to is served to the same visitor.  A visitor without a token is only
    ever sent to the login page, with the path asked for as the
    [redirect] parameter; a visitor with one only to the dashboard. *)
Theorem guard_redirects_settle (pathname : string) (authToken : option string)
    (target : string) (redirect : option string)
    (Hr : middleware pathname authToken = Redirect target redirect) :
  middleware target authToken = Next /\
  ((hasValidToken authToken = false /\ target = "/auth/login" /\
    redirect = Some pathname) \/
   (hasValidToken authToken = true /\ target = "/dashboard" /\
    redirect = None)).
Proof.
  revert Hr. unfold middleware at 1.
  destruct (existsb _ excludedPaths); [discriminate|].
  destruct (hasValidToken authToken) eqn:Hv; cbn [negb].
  - destruct (existsb _ publicRoutes);
      [|destruct (String.eqb pathname "/"); [|discriminate]];
      intros [= <- <-]; (split; [|right; auto]);
      unfold middleware; rewrite Hv; reflexivity.
  - destruct (negb _ && negb _); [|discriminate].
    intros [= <- <-]. split; [|left; auto].
    unfold middleware. rewrite Hv. reflexivity.
Qed.

(** The page is served, for one of the three reasons. *)
Ltac served :=
  simpl; split; [split; intros; first [reflexivity | auto] | intros H; now destruct H].

(** X16.  Without a token a page is served only when its path starts
    with an excluded prefix or a public route, or is the root; every
    other path is redirected to the login page.  Paths under an
    excluded prefix are served to everyone, whatever follows the
    prefix. *)
Theorem guard_protects_pages (pathname : string) (authToken : option string) :
  (hasValidToken authToken = false ->
   (middleware pathname authToken = Next <->
    excluded pathname = true \/ public pathname = true \/ pathname = "/") /\
   (middleware pathname authToken <> Next ->
    middleware pathname authToken = Redirect "/auth/login" (Some pathname))) /\
  (forall prefix rest, In prefix excludedPaths ->
     middleware (prefix ++ rest) authToken = Next).
Proof.
  split.
  - intros Hv. unfold middleware.
    fold (excluded pathname). fold (public pathname). rewrite Hv.
    destruct (excluded pathname); [served|].
    destruct (public pathname); [served|].
    destruct (String.eqb_spec pathname "/") as [->|Hne]; [served|].
    simpl. split; [|reflexivity]. split; [discriminate|].
    intros [H|[H|H]]; congruence.
  - intros prefix rest Hin. unfold middleware.
    assert (existsb (fun path => startsWith (prefix ++ rest) path) excludedPaths
            = true) as ->; [|reflexivity].
    apply existsb_exists. exists prefix. split; [exact Hin|].
    unfold startsWith. clear Hin.
    induction prefix as [|c prefix IH]; simpl.
    + destruct rest; reflexivity.
    + destruct (ascii_dec c c); [exact IH | contradiction].
Qed.

(** X17.  The guard and the store judge by different cookies.  The
    guard looks only at whether the access-token cookie is non-blank;
    [checkAuth] only at the refresh token.  So with a valid refresh
    token and no access token the store says authenticated while the
    guard redirects a protected page to the login; and with an access
    token and no valid refresh token the guard serves the page while
    [checkAuth] returns false. *)
Theorem guard_and_store_disagree (st : AuthStore.AuthState)
    (jar : gmap string cookie) (now : Z) (pathname : string)
    (Hprotected : excluded pathname = false /\ public pathname = false /\
                  pathname <> "/") :
  (getAuthToken jar now = None -> isRefreshTokenValid jar now = true ->
   fst (AuthStore.checkAuth st jar now) = true /\
   middleware pathname (getAuthToken jar now)
     = Redirect "/auth/login" (Some pathname)) /\
  (hasValidToken (getAuthToken jar now) = true ->
   isRefreshTokenValid jar now = false ->
   fst (AuthStore.checkAuth st jar now) = false /\
   middleware pathname (getAuthToken jar now) = Next).
Proof.
  destruct Hprotected as (He & Hp & Hroot).
  apply String.eqb_neq in Hroot.
  unfold excluded, public in *. split.
  - intros Ha Hv. split.
    + unfold AuthStore.checkAuth. rewrite Hv. simpl. apply orb_true_r.
    + unfold middleware. rewrite He, Hp, Hroot, Ha. reflexivity.
  - intros Ha Hv. split.
    + unfold AuthStore.checkAuth. rewrite Hv. reflexivity.
    + unfold middleware. rewrite He, Hp, Hroot, Ha. reflexivity.
Qed.

End GuardFacts.

Lemma guard_redirects_settle_witness :
  Middleware.middleware "/auth/login" None = Middleware.Next /\
  Middleware.middleware "/dashboard" (Some "token") = Middleware.Next.
Proof.
  split.
  - apply (proj1 (guard_redirects_settle "/devices" None "/auth/login"
                    (Some "/devices") eq_refl)).
  - apply (proj1 (guard_redirects_settle "/" (Some "token") "/dashboard"
                    None eq_refl)).
Defined.

Lemma guard_protects_pages_witness :
  Middleware.middleware "/devices" (Some "   ")
    = Middleware.Redirect "/auth/login" (Some "/devices") /\
  Middleware.middleware "/api-keys" None = Middleware.Next.
Proof.
  split.
  - apply (proj2 (proj1 (guard_protects_pages "/devices" (Some "   "))
                    eq_refl)).
    discriminate.
  - apply (proj2 (guard_protects_pages "/api-keys" None) "/api" "-keys").
    simpl. auto.
Defined.

Lemma guard_and_store_disagree_witness :
  fst (AuthStore.checkAuth (rt := Host.runtime) AuthStore.initial
         Scenario.jar0 1000000) = true /\
  Middleware.middleware "/devices"
    (Cookies.getAuthToken Scenario.jar0 1000000)
  = Middleware.Redirect "/auth/login" (Some "/devices").
Proof.
  assert (excluded "/devices" = false /\ public "/devices" = false /\
          "/devices" <> "/") as Hp by (repeat split; discriminate).
  apply (proj1 (guard_and_store_disagree (rt := Host.runtime)
                  AuthStore.initial Scenario.jar0 1000000 "/devices" Hp));
    vm_compute; reflexivity.
Defined.

(** ** Whole calls *)

(** Compute the fields of a world built by the operations of the
    client, and the lookups in its maps at distinct activations. *)
Ltac world_simpl :=
  cbn [fst snd ApiClient.awaited
       ApiClient.isRefreshing ApiClient.refreshPromise ApiClient.jar
       ApiClient.now ApiClient.store ApiClient.promises ApiClient.frames
       ApiClient.microtasks ApiClient.next_pid ApiClient.sent
       ApiClient.set_isRefreshing ApiClient.set_refreshPromise
       ApiClient.set_jar ApiClient.set_now ApiClient.set_store
       ApiClient.set_microtasks ApiClient.new_promise ApiClient.settle
       ApiClient.await ApiClient.await_fetch ApiClient.request_send
       ApiClient.request_unchecked ApiClient.finally_reset
       ApiClient.store_tokens start_renewal].

Ltac trace_simpl :=
  repeat first
    [ progress world_simpl
    | rewrite lookup_insert_eq
    | rewrite lookup_insert_ne by lia
    | rewrite lookup_delete_eq
    | rewrite lookup_delete_ne by lia
    | rewrite app_nil_r
    | rewrite app_nil_l ].

Section WholeCalls.
Context {rt : JsRuntime}.
Import Cookies Types ApiClient.

Lemma ensureValidToken_fails (w : World) :
  isRefreshing w = false \/ refreshPromise w = None ->
  isRefreshTokenValid (jar w) (now w) = false ->
  ensureValidToken w
  = (next_pid w, settle (next_pid w) (Rejected no_refresh_token) (new_promise w).2).
Proof.
  intros Hidle Hbad. unfold ensureValidToken. open_new_promise w.
  change (isRefreshing (new_promise w).2) with (isRefreshing w).
  change (refreshPromise (new_promise w).2) with (refreshPromise w).
  change (jar (new_promise w).2) with (jar w).
  change (now (new_promise w).2) with (now w).
  rewrite Hbad.
  destruct (isRefreshing w); [destruct (refreshPromise w)|];
    try (destruct Hidle; discriminate);
    destruct (nonempty _); reflexivity.
Qed.

Lemma ensureValidToken_starts (w : World) (v : string) :
  isRefreshing w = false \/ refreshPromise w = None ->
  nonempty (getRefreshToken (jar w) (now w)) = Some v ->
  isRefreshTokenValid (jar w) (now w) = true ->
  ensureValidToken w = (next_pid w, start_renewal v w).
Proof.
  intros Hidle Hv Hok. unfold ensureValidToken. open_new_promise w.
  change (isRefreshing (new_promise w).2) with (isRefreshing w).
  change (refreshPromise (new_promise w).2) with (refreshPromise w).
  change (jar (new_promise w).2) with (jar w).
  change (now (new_promise w).2) with (now w).
  rewrite Hv, Hok.
  destruct (isRefreshing w); [destruct (refreshPromise w)|];
    try (destruct Hidle; discriminate); reflexivity.
Qed.

Lemma request_prechecks (endpoint : string) (opts : Options) (isRetry : bool)
    (w : World) :
  is_auth_endpoint endpoint = false ->
  isTokenExpiredOrExpiringSoon (getAuthToken (jar w) (now w)) (now w) = true ->
  request endpoint opts isRetry w
  = (next_pid w,
     await (next_pid w) (ensureValidToken (new_promise w).2).1
       (ReqAwaitPrecheck endpoint opts isRetry
          (ensureValidToken (new_promise w).2).1)
       (ensureValidToken (new_promise w).2).2).
Proof.
  intros Ha He. unfold request. rewrite Ha. open_new_promise w.
  cbn [fst snd].
  change (jar (new_promise w).2) with (jar w).
  change (now (new_promise w).2) with (now w).
  rewrite He. destruct (ensureValidToken (new_promise w).2). reflexivity.
Qed.

(** X18.  The access token is expired or expiring and the refresh
    token is absent or invalid, with no renewal in progress: a data call
    fails in the next turn with the session-expired error, both cookies
    are removed, and [fetch] is never called. *)
Theorem call_without_refresh_token_fails_fast (w : World) (endpoint : string)
    (opts : Options)
    (Hquiet : microtasks w = [])
    (Hidle : isRefreshing w = false \/ refreshPromise w = None)
    (Hprotected : is_auth_endpoint endpoint = false)
    (Hexp : isTokenExpiredOrExpiringSoon (getAuthToken (jar w) (now w)) (now w)
            = true)
    (Hbad : isRefreshTokenValid (jar w) (now w) = false) :
  exists w',
    run w [Call endpoint opts; Microtask] = Some w' /\
    promises w' !! next_pid w = Some (Settled (Rejected session_expired)) /\
    sent w' = sent w /\
    getAuthToken (jar w') (now w') = None /\
    getRefreshToken (jar w') (now w') = None /\
    frames w' !! next_pid w = None /\
    microtasks w' = [] /\
    isRefreshing w' = isRefreshing w /\ refreshPromise w' = refreshPromise w.
Proof.
  unfold run, step at 1. rewrite Hquiet. cbn [task]. rewrite Hprotected.
  rewrite (request_prechecks endpoint opts false w Hprotected Hexp).
  rewrite (ensureValidToken_fails (new_promise w).2 Hidle Hbad).
  unfold step. trace_simpl. rewrite Hquiet. trace_simpl.
  cbn [resume]. trace_simpl.
  eexists. split; [reflexivity|]. trace_simpl.
  rewrite getAuthToken_removeAuthTokens, getRefreshToken_removeAuthTokens.
  repeat split.
Qed.


(** X19.  The access token is expired or expiring and the refresh
    token is valid, with no renewal in progress.  A data call sends one
    request to the renewal endpoint, carrying the stored refresh token;
    when that is answered 2xx with [success: true] and a pair of
    tokens, the pair is stored, the two fields of the client are reset,
    and the call goes out exactly once, with the new access token as
    its bearer credential. *)
Theorem expired_access_token_is_renewed_then_sent (w : World)
    (endpoint : string) (opts : Options) (v : string) (status : Z)
    (statusText : string) (d : AuthData) (err : option ErrorInfo)
    (Hquiet : microtasks w = [])
    (Hidle : isRefreshing w = false \/ refreshPromise w = None)
    (Hprotected : is_auth_endpoint endpoint = false)
    (Hexp : isTokenExpiredOrExpiringSoon (getAuthToken (jar w) (now w)) (now w)
            = true)
    (Hv : nonempty (getRefreshToken (jar w) (now w)) = Some v)
    (Hvalid : isRefreshTokenValid (jar w) (now w) = true)
    (Hstatus : ok status = true) :
  exists w',
    run w [Call endpoint opts;
           Deliver (S (S (next_pid w)))
             (Response status statusText
                (JsonBody {| success := Some true; data := Some d;
                             error := err |}));
           Microtask; Microtask] = Some w' /\
    sent w'
      = (sent w
         ++ [ {| url := "/auth/refresh";
                 authorization := bearer (getAuthToken (jar w) (now w));
                 options := post (RefreshBody v) |};
              {| url := endpoint;
                 authorization := bearer (Some (accessToken d));
                 options := opts |} ])%list /\
    getAuthToken (jar w') (now w') = Some (accessToken d) /\
    getRefreshToken (jar w') (now w') = Some (Types.refreshToken d) /\
    isRefreshing w' = false /\ refreshPromise w' = None /\
    frames w' !! next_pid w = Some (ReqAwaitFetch endpoint opts false) /\
    microtasks w' = [].
Proof.
  destruct (get_tokens_after_pair d (jar w) (now w)) as [Hat Hrt].
  cbv zeta in Hat, Hrt.
  unfold run, step at 1. rewrite Hquiet. cbn [task]. rewrite Hprotected.
  rewrite (request_prechecks endpoint opts false w Hprotected Hexp).
  rewrite (ensureValidToken_starts (new_promise w).2 v Hidle Hv Hvalid).
  unfold step at 1. trace_simpl. rewrite Hquiet.
  cbn [task]. unfold deliver. trace_simpl.
  unfold handle_response. rewrite Hstatus. cbn [negb success error].
  unfold step at 1. trace_simpl.
  cbn [resume success data].
  unfold step at 1. trace_simpl. cbn [resume]. trace_simpl.
  eexists. split; [reflexivity|]. trace_simpl.
  rewrite Hat, Hrt, <- app_assoc. repeat split.
Qed.

(** X20.  A renewal is not cancelled by a logout.  When [clearAuth]
    runs while the renewal request is in flight, the cookies are
    removed and the store is reset; but once the renewal is granted its
    pair of tokens is stored all the same, so both cookies are present
    again although the store says not authenticated. *)
Theorem logout_during_renewal_is_undone (w : World)
    (endpoint : string) (opts : Options) (v : string) (status : Z)
    (statusText : string) (d : AuthData) (err : option ErrorInfo)
    (Hquiet : microtasks w = [])
    (Hidle : isRefreshing w = false \/ refreshPromise w = None)
    (Hprotected : is_auth_endpoint endpoint = false)
    (Hexp : isTokenExpiredOrExpiringSoon (getAuthToken (jar w) (now w)) (now w)
            = true)
    (Hv : nonempty (getRefreshToken (jar w) (now w)) = Some v)
    (Hvalid : isRefreshTokenValid (jar w) (now w) = true)
    (Hstatus : ok status = true) :
  exists w1 w',
    run w [Call endpoint opts; ClearAuth] = Some w1 /\
    getAuthToken (jar w1) (now w1) = None /\
    getRefreshToken (jar w1) (now w1) = None /\
    run w1 [Deliver (S (S (next_pid w)))
              (Response status statusText
                 (JsonBody {| success := Some true; data := Some d;
                              error := err |}));
            Microtask] = Some w' /\
    getAuthToken (jar w') (now w') = Some (accessToken d) /\
    getRefreshToken (jar w') (now w') = Some (Types.refreshToken d) /\
    AuthStore.isAuthenticated (store w') = false.
Proof.
  destruct (get_tokens_after_pair d (removeAuthTokens (jar w)) (now w))
    as [Hat Hrt].
  cbv zeta in Hat, Hrt.
  unfold run, step at 1. rewrite Hquiet. cbn [task]. rewrite Hprotected.
  rewrite (request_prechecks endpoint opts false w Hprotected Hexp).
  rewrite (ensureValidToken_starts (new_promise w).2 v Hidle Hv Hvalid).
  unfold step at 1. trace_simpl. rewrite Hquiet.
  cbn [task AuthStore.clearAuth]. trace_simpl.
  eexists. eexists. split; [reflexivity|]. trace_simpl.
  rewrite getAuthToken_removeAuthTokens, getRefreshToken_removeAuthTokens.
  split; [reflexivity|]. split; [reflexivity|].
  unfold step at 1. trace_simpl.
  cbn [task]. unfold deliver. trace_simpl.
  unfold handle_response. rewrite Hstatus. cbn [negb success error].
  unfold step at 1. trace_simpl.
  cbn [resume success data]. trace_simpl.
  split; [reflexivity|]. trace_simpl.
  rewrite Hat, Hrt. repeat split.
Qed.

(** The activations that [login] and [register] start. *)
Lemma call_auth_world (who : AuthCall) (endpoint payload : string) (w : World) :
  is_auth_endpoint endpoint = true ->
  (call_auth who endpoint payload w).2
  = await (next_pid w) (S (next_pid w))
      (StoreTokensAwait who (S (next_pid w)))
      (request_unchecked endpoint (post (DataBody payload)) false
         (new_promise w).2).2.
Proof.
  intros Ha. unfold call_auth, request. rewrite Ha. open_new_promise w.
  cbn [fst snd]. reflexivity.
Qed.

(** X21.  [login] and [register] go to the network at once, whatever
    the state of the tokens, with one call of [fetch]; no answer leads
    to a renewal.  If the answer is returned by [request], the caller
    receives it, and the pair of tokens is stored exactly when it
    declares [success: true] and has a payload; if [request] throws, the
    caller receives that error and the cookies are left as they were. *)
Theorem login_and_register_outcomes (w : World) (ev : Event)
    (who : AuthCall) (endpoint payload : string)
    (res : FetchResult AuthData)
    (Hquiet : microtasks w = [])
    (Hev : (ev = CallLogin payload /\ who = Login /\ endpoint = "/auth/login")
           \/ (ev = CallRegister payload /\ who = Register /\
               endpoint = "/auth/register")) :
  exists w',
    run w [ev; Deliver (S (next_pid w)) res; Microtask] = Some w' /\
    sent w'
      = (sent w
         ++ [ {| url := endpoint;
                 authorization := bearer (getAuthToken (jar w) (now w));
                 options := post (DataBody payload) |} ])%list /\
    isRefreshing w' = isRefreshing w /\ refreshPromise w' = refreshPromise w /\
    match handle_response endpoint false res with
    | Return r =>
        promises w' !! next_pid w = Some (Settled (Fulfilled (VResponse r))) /\
        jar w'
          = match success r, data r with
            | Some true, Some d =>
                setRefreshToken (Types.refreshToken d)
                  (setAuthToken (accessToken d) (jar w) (now w)) (now w)
            | _, _ => jar w
            end
    | Throw e =>
        promises w' !! next_pid w = Some (Settled (Rejected e)) /\
        jar w' = jar w
    | RenewAndRetry => False
    end.
Proof.
  assert (is_auth_endpoint endpoint = true) as Ha
    by (destruct Hev as [(_ & _ & ->)|(_ & _ & ->)]; reflexivity).
  assert (step w ev = Some (call_auth who endpoint payload w).2) as Hcall.
  { unfold step. rewrite Hquiet.
    destruct Hev as [(-> & -> & ->)|(-> & -> & ->)]; reflexivity. }
  unfold run. rewrite Hcall. rewrite (call_auth_world who endpoint payload w Ha).
  unfold step at 1. trace_simpl. rewrite Hquiet.
  cbn [task]. unfold deliver. trace_simpl.
  destruct (handle_response endpoint false res) as [r|e|] eqn:Hh.
  - unfold step at 1. trace_simpl. cbn [resume]. trace_simpl.
    eexists. split; [reflexivity|].
    destruct (success r) as [[|]|]; [destruct (data r)|..]; trace_simpl;
      repeat split.
  - unfold step at 1. trace_simpl. cbn [resume]. trace_simpl.
    eexists. split; [reflexivity|]. trace_simpl. repeat split.
  - apply handle_response_RenewAndRetry in Hh as (Hno & _). congruence.
Qed.

Lemma isRefreshTokenValid_nonempty (j : gmap string cookie) (t : Z) :
  isRefreshTokenValid j t = true ->
  exists v, nonempty (getRefreshToken j t) = Some v.
Proof.
  unfold isRefreshTokenValid, nonempty.
  destruct (getRefreshToken j t) as [v|]; [|discriminate].
  destruct (String.eqb v ""); [discriminate|]. eauto.
Qed.

Lemma ensureValidToken_store (w : World) :
  store (ensureValidToken w).2 = store w.
Proof.
  unfold ensureValidToken, request_unchecked, request_send.
  open_new_promise w.
  destruct (isRefreshing _); [destruct (refreshPromise _)|];
    try reflexivity;
    destruct (nonempty _); try reflexivity;
    destruct (isRefreshTokenValid _ _); reflexivity.
Qed.

(** X22.  The watchdog.  With an invalid refresh token it ends the
    session (cookies removed, store reset) and calls nothing.  With a
    valid refresh token it never touches the cookies nor the store: it
    does nothing at all while the access token is good, and otherwise
    calls [health], which sends nothing itself when a renewal is already
    in progress, and exactly the renewal request when none is. *)
Theorem validateTokens_cases (w : World) :
  (isRefreshTokenValid (jar w) (now w) = false ->
   getAuthToken (jar (validateTokens w)) (now w) = None /\
   getRefreshToken (jar (validateTokens w)) (now w) = None /\
   AuthStore.isAuthenticated (store (validateTokens w)) = false /\
   sent (validateTokens w) = sent w /\
   next_pid (validateTokens w) = next_pid w) /\
  (isRefreshTokenValid (jar w) (now w) = true ->
   jar (validateTokens w) = jar w /\ store (validateTokens w) = store w /\
   (isTokenExpiredOrExpiringSoon (getAuthToken (jar w) (now w)) (now w) = false ->
    validateTokens w = w) /\
   (isTokenExpiredOrExpiringSoon (getAuthToken (jar w) (now w)) (now w) = true ->
    validateTokens w = (health w).2 /\
    (forall p, isRefreshing w = true -> refreshPromise w = Some p ->
       sent (validateTokens w) = sent w) /\
    (isRefreshing w = false \/ refreshPromise w = None ->
     exists v,
       nonempty (getRefreshToken (jar w) (now w)) = Some v /\
       sent (validateTokens w)
         = (sent w
            ++ [ {| url := "/auth/refresh";
                    authorization := bearer (getAuthToken (jar w) (now w));
                    options := post (RefreshBody v) |} ])%list))).
Proof.
  unfold validateTokens. split.
  - intros Hbad. rewrite Hbad. rewrite andb_false_r. cbn [negb].
    cbn [AuthStore.clearAuth]. trace_simpl.
    rewrite getAuthToken_removeAuthTokens, getRefreshToken_removeAuthTokens.
    repeat split.
  - intros Hok. rewrite Hok, andb_true_r. cbn [negb].
    destruct (isTokenExpiredOrExpiringSoon _ _) eqn:Hexp.
    + assert (is_auth_endpoint "/health" = false) as Hh by reflexivity.
      unfold health.
      rewrite (request_prechecks "/health" no_options false w Hh Hexp).
      split; [|split; [|split; [discriminate|]]].
      * exact (proj1 (ensureValidToken_jar (new_promise w).2)).
      * exact (ensureValidToken_store (new_promise w).2).
      * intros _. split; [reflexivity|]. split.
        -- intros p Hi Hp. trace_simpl.
           apply (ensureValidToken_joins (new_promise w).2 p Hi Hp).
        -- intros Hidle.
           destruct (isRefreshTokenValid_nonempty _ _ Hok) as [v Hv].
           exists v. split; [exact Hv|].
           rewrite (ensureValidToken_starts (new_promise w).2 v Hidle Hv Hok).
           trace_simpl. reflexivity.
    + split; [reflexivity|]. split; [reflexivity|].
      split; [intros _; reflexivity | discriminate].
Qed.

End WholeCalls.

(** ** Witnesses of the further properties *)

Lemma percent_encode_is_invertible_witness :
  "a+b" = percent_decode "%61%2b%62".
Proof.
  apply (proj2 (proj2 (percent_encode_is_invertible "a+b"
                         (percent_decode "%61%2b%62")))).
  reflexivity.
Defined.

Lemma only_2xx_bodies_are_returned_witness :
  exists status statusText,
    Scenario.refresh_refused
    = ApiClient.Response status statusText
        (ApiClient.JsonBody
           {| Types.success := Some false; Types.data := None;
              Types.error := None |}) /\
    ApiClient.ok status = true.
Proof.
  destruct (proj1 (only_2xx_bodies_are_returned (T := Types.AuthData)
                     "/auth/refresh" true Scenario.refresh_refused
                     {| Types.success := Some false; Types.data := None;
                        Types.error := None |}) eq_refl)
    as (status & statusText & Hres & Hok & _).
  exists status, statusText. split; assumption.
Defined.



Lemma call_without_refresh_token_fails_fast_witness :
  exists w',
    ApiClient.run (rt := Host.runtime) Scenario.w_expired
      [ApiClient.Call "/devices" ApiClient.no_options; ApiClient.Microtask]
    = Some w' /\
    ApiClient.promises w' !! 0%nat
    = Some (ApiClient.Settled (ApiClient.Rejected ApiClient.session_expired)) /\
    ApiClient.sent w' = [].
Proof.
  assert (Cookies.isTokenExpiredOrExpiringSoon (rt := Host.runtime)
            (Cookies.getAuthToken (ApiClient.jar Scenario.w_expired)
               (ApiClient.now Scenario.w_expired))
            (ApiClient.now Scenario.w_expired) = true) as Hexp
    by (vm_compute; reflexivity).
  assert (Cookies.isRefreshTokenValid (rt := Host.runtime)
            (ApiClient.jar Scenario.w_expired)
            (ApiClient.now Scenario.w_expired) = false) as Hbad
    by (vm_compute; reflexivity).
  destruct (call_without_refresh_token_fails_fast (rt := Host.runtime)
              Scenario.w_expired "/devices" ApiClient.no_options
              eq_refl (or_introl eq_refl) eq_refl Hexp Hbad)
    as (w' & Hrun & Hp & Hs & _).
  exists w'. repeat split; assumption.
Defined.

Lemma expired_access_token_is_renewed_then_sent_witness :
  exists w',
    ApiClient.run (rt := Host.runtime) Scenario.w0
      [ApiClient.Call "/devices" ApiClient.no_options;
       ApiClient.Deliver 2%nat Scenario.refresh_granted;
       ApiClient.Microtask; ApiClient.Microtask] = Some w' /\
    Cookies.getAuthToken (ApiClient.jar w') (ApiClient.now w')
    = Some Host.token_exp_9000 /\
    ApiClient.isRefreshing w' = false.
Proof.
  assert (Cookies.isTokenExpiredOrExpiringSoon (rt := Host.runtime)
            (Cookies.getAuthToken (ApiClient.jar Scenario.w0)
               (ApiClient.now Scenario.w0))
            (ApiClient.now Scenario.w0) = true) as Hexp
    by (vm_compute; reflexivity).
  assert (ApiClient.nonempty
            (Cookies.getRefreshToken (ApiClient.jar Scenario.w0)
               (ApiClient.now Scenario.w0)) = Some Host.token_exp_9000) as Hv
    by (vm_compute; reflexivity).
  assert (Cookies.isRefreshTokenValid (rt := Host.runtime)
            (ApiClient.jar Scenario.w0) (ApiClient.now Scenario.w0) = true)
    as Hvalid by (vm_compute; reflexivity).
  destruct (expired_access_token_is_renewed_then_sent (rt := Host.runtime)
              Scenario.w0 "/devices" ApiClient.no_options Host.token_exp_9000
              200 "OK" Scenario.new_pair None
              eq_refl (or_introl eq_refl) eq_refl Hexp Hv Hvalid eq_refl)
    as (w' & Hrun & _ & Hat & _ & Hi & _).
  exists w'. repeat split; assumption.
Defined.

Lemma logout_during_renewal_is_undone_witness :
  exists w1 w',
    ApiClient.run (rt := Host.runtime) Scenario.w0
      [ApiClient.Call "/devices" ApiClient.no_options; ApiClient.ClearAuth]
    = Some w1 /\
    Cookies.getRefreshToken (ApiClient.jar w1) (ApiClient.now w1) = None /\
    ApiClient.run (rt := Host.runtime) w1
      [ApiClient.Deliver 2%nat Scenario.refresh_granted; ApiClient.Microtask]
    = Some w' /\
    Cookies.getRefreshToken (ApiClient.jar w') (ApiClient.now w')
    = Some Host.token_exp_9000.
Proof.
  assert (Cookies.isTokenExpiredOrExpiringSoon (rt := Host.runtime)
            (Cookies.getAuthToken (ApiClient.jar Scenario.w0)
               (ApiClient.now Scenario.w0))
            (ApiClient.now Scenario.w0) = true) as Hexp
    by (vm_compute; reflexivity).
  assert (ApiClient.nonempty
            (Cookies.getRefreshToken (ApiClient.jar Scenario.w0)
               (ApiClient.now Scenario.w0)) = Some Host.token_exp_9000) as Hv
    by (vm_compute; reflexivity).
  assert (Cookies.isRefreshTokenValid (rt := Host.runtime)
            (ApiClient.jar Scenario.w0) (ApiClient.now Scenario.w0) = true)
    as Hvalid by (vm_compute; reflexivity).
  destruct (logout_during_renewal_is_undone (rt := Host.runtime)
              Scenario.w0 "/devices" ApiClient.no_options Host.token_exp_9000
              200 "OK" Scenario.new_pair None
              eq_refl (or_introl eq_refl) eq_refl Hexp Hv Hvalid eq_refl)
    as (w1 & w' & Hrun1 & _ & Hr1 & Hrun2 & _ & Hr2 & _).
  exists w1, w'. repeat split; assumption.
Defined.

Lemma login_and_register_outcomes_witness :
  exists w',
    ApiClient.run (rt := Host.runtime) Scenario.w_empty
      [ApiClient.CallLogin "credentials";
       ApiClient.Deliver 1%nat Scenario.refresh_granted;
       ApiClient.Microtask] = Some w' /\
    ApiClient.jar w'
    = Cookies.setRefreshToken Host.token_exp_9000
        (Cookies.setAuthToken Host.token_exp_9000 ∅ 1000000) 1000000.
Proof.
  destruct (login_and_register_outcomes (rt := Host.runtime)
              Scenario.w_empty (ApiClient.CallLogin "credentials")
              ApiClient.Login "/auth/login" "credentials"
              Scenario.refresh_granted eq_refl
              (or_introl (conj eq_refl (conj eq_refl eq_refl))))
    as (w' & Hrun & _ & _ & _ & H).
  exists w'. split; [exact Hrun|]. exact (proj2 H).
Defined.

Lemma validateTokens_cases_witness :
  Cookies.getRefreshToken
    (ApiClient.jar (ApiClient.validateTokens (rt := Host.runtime)
                      Scenario.w_expired))
    (ApiClient.now Scenario.w_expired) = None /\
  ApiClient.validateTokens (rt := Host.runtime) Scenario.w1 = Scenario.w1.
Proof.
  split.
  - assert (Cookies.isRefreshTokenValid (rt := Host.runtime)
              (ApiClient.jar Scenario.w_expired)
              (ApiClient.now Scenario.w_expired) = false) as Hbad
      by (vm_compute; reflexivity).
    apply (proj1 (validateTokens_cases (rt := Host.runtime) Scenario.w_expired)
             Hbad).
  - assert (Cookies.isRefreshTokenValid (rt := Host.runtime)
              (ApiClient.jar Scenario.w1) (ApiClient.now Scenario.w1) = true)
      as Hok by (vm_compute; reflexivity).
    assert (Cookies.isTokenExpiredOrExpiringSoon (rt := Host.runtime)
              (Cookies.getAuthToken (ApiClient.jar Scenario.w1)
                 (ApiClient.now Scenario.w1))
              (ApiClient.now Scenario.w1) = false) as Hgood
      by (vm_compute; reflexivity).
    apply (proj1 (proj2 (proj2
             (proj2 (validateTokens_cases (rt := Host.runtime) Scenario.w1)
                Hok))) Hgood).
Defined.

Section RefusedRenewal.
Context {rt : JsRuntime}.
Import Cookies Types ApiClient.

(** X23.  The access token is expired or expiring and the refresh
    token is valid, with no renewal in progress, and the renewal is not
    granted: the transport fails, or the answer is outside 2xx, or is
    not JSON, or does not declare [success: true] with a pair of
    tokens.  Then the call is rejected with the session-expired error
    and is never sent, both cookies are removed, and the two fields of
    the client are reset, so that the next call can try again. *)
Theorem refused_renewal_ends_the_session (w : World)
    (endpoint : string) (opts : Options) (v : string)
    (res : FetchResult AuthData)
    (Hquiet : microtasks w = [])
    (Hidle : isRefreshing w = false \/ refreshPromise w = None)
    (Hprotected : is_auth_endpoint endpoint = false)
    (Hexp : isTokenExpiredOrExpiringSoon (getAuthToken (jar w) (now w)) (now w)
            = true)
    (Hv : nonempty (getRefreshToken (jar w) (now w)) = Some v)
    (Hvalid : isRefreshTokenValid (jar w) (now w) = true)
    (Hrefused : forall r, handle_response "/auth/refresh" true res = Return r ->
                  success r <> Some true \/ data r = None) :
  exists w',
    run w [Call endpoint opts; Deliver (S (S (next_pid w))) res;
           Microtask; Microtask] = Some w' /\
    promises w' !! next_pid w = Some (Settled (Rejected session_expired)) /\
    sent w'
      = (sent w
         ++ [ {| url := "/auth/refresh";
                 authorization := bearer (getAuthToken (jar w) (now w));
                 options := post (RefreshBody v) |} ])%list /\
    getAuthToken (jar w') (now w') = None /\
    getRefreshToken (jar w') (now w') = None /\
    isRefreshing w' = false /\ refreshPromise w' = None /\
    frames w' !! next_pid w = None /\
    microtasks w' = [].
Proof.
  unfold run, step at 1. rewrite Hquiet. cbn [task]. rewrite Hprotected.
  rewrite (request_prechecks endpoint opts false w Hprotected Hexp).
  rewrite (ensureValidToken_starts (new_promise w).2 v Hidle Hv Hvalid).
  unfold step at 1. trace_simpl. rewrite Hquiet.
  cbn [task]. unfold deliver. trace_simpl.
  destruct (handle_response "/auth/refresh" true res) as [r|e|] eqn:Hh.
  - specialize (Hrefused r eq_refl).
    unfold step at 1. trace_simpl. cbn [resume].
    assert (match success r, data r with
            | Some true, Some _ => False
            | _, _ => True
            end) as Hno.
    { destruct (success r) as [[|]|], (data r); try exact I;
        destruct Hrefused; congruence. }
    destruct (success r) as [[|]|], (data r); try contradiction;
      unfold step at 1; trace_simpl; cbn [resume]; trace_simpl;
      (eexists; split; [reflexivity|]); trace_simpl;
      rewrite getAuthToken_removeAuthTokens, getRefreshToken_removeAuthTokens;
      repeat split.
  - unfold step at 1. trace_simpl. cbn [resume].
    unfold step at 1. trace_simpl. cbn [resume]. trace_simpl.
    eexists. split; [reflexivity|]. trace_simpl.
    rewrite getAuthToken_removeAuthTokens, getRefreshToken_removeAuthTokens.
    repeat split.
  - apply handle_response_RenewAndRetry in Hh. destruct Hh as (Ha & _).
    discriminate.
Qed.

End RefusedRenewal.

Lemma refused_renewal_ends_the_session_witness :
  exists w',
    ApiClient.run (rt := Host.runtime) Scenario.w0
      [ApiClient.Call "/devices" ApiClient.no_options;
       ApiClient.Deliver 2%nat Scenario.refresh_refused;
       ApiClient.Microtask; ApiClient.Microtask] = Some w' /\
    ApiClient.promises w' !! 0%nat
    = Some (ApiClient.Settled (ApiClient.Rejected ApiClient.session_expired)) /\
    ApiClient.isRefreshing w' = false.
Proof.
  assert (Cookies.isTokenExpiredOrExpiringSoon (rt := Host.runtime)
            (Cookies.getAuthToken (ApiClient.jar Scenario.w0)
               (ApiClient.now Scenario.w0))
            (ApiClient.now Scenario.w0) = true) as Hexp
    by (vm_compute; reflexivity).
  assert (ApiClient.nonempty
            (Cookies.getRefreshToken (ApiClient.jar Scenario.w0)
               (ApiClient.now Scenario.w0)) = Some Host.token_exp_9000) as Hv
    by (vm_compute; reflexivity).
  assert (Cookies.isRefreshTokenValid (rt := Host.runtime)
            (ApiClient.jar Scenario.w0) (ApiClient.now Scenario.w0) = true)
    as Hvalid by (vm_compute; reflexivity).
  assert (forall r,
            ApiClient.handle_response "/auth/refresh" true
              Scenario.refresh_refused = ApiClient.Return r ->
            Types.success r <> Some true \/ Types.data r = None) as Hrefused.
  { intros r [= <-]. right. reflexivity. }
  destruct (refused_renewal_ends_the_session (rt := Host.runtime)
              Scenario.w0 "/devices" ApiClient.no_options Host.token_exp_9000
              Scenario.refresh_refused
              eq_refl (or_introl eq_refl) eq_refl Hexp Hv Hvalid Hrefused)
    as (w' & Hrun & Hp & _ & _ & _ & Hi & _).
  exists w'. repeat split; assumption.
Defined.

(** ** The latch of the renewal *)

Section LatchFacts.
Context {rt : JsRuntime}.
Import Cookies Types ApiClient.

Lemma keeps_refl w : keeps w w.
Proof. split; auto. Qed.

Lemma keeps_trans w1 w2 w3 : keeps w1 w2 -> keeps w2 w3 -> keeps w1 w3.
Proof.
  intros [n1 f1] [n2 f2]. split; [lia|].
  intros q Hq. rewrite f2 by lia. auto.
Qed.

Lemma Latch_initial jar0 now0 store0 : Latch (initial jar0 now0 store0).
Proof.
  split; simpl; intros *; rewrite ?lookup_empty; try discriminate.
  reflexivity.
Qed.

(** A world with the same activations, promises, queue and fields. *)
Lemma Latch_same (w w' : World) :
  frames w' = frames w -> promises w' = promises w ->
  microtasks w' = microtasks w -> next_pid w' = next_pid w ->
  isRefreshing w' = isRefreshing w -> refreshPromise w' = refreshPromise w ->
  Latch w -> Latch w'.
Proof.
  intros Hf Hp Hm Hn Hi Hr [Hfr Hop Hcl].
  split; unfold owner_waits in *; rewrite ?Hf, ?Hp, ?Hm, ?Hn, ?Hi, ?Hr; auto.
Qed.

(** Once the fields are reset nothing is left to show. *)
Lemma Latch_reset (w w' : World) :
  (forall q f, frames w' !! q = Some f -> (q < next_pid w')%nat) ->
  isRefreshing w' = false -> refreshPromise w' = None -> Latch w'.
Proof.
  intros Hfr Hi Hr. split; [assumption | auto | congruence].
Qed.

Lemma Latch_new_promise (w : World) : Latch w -> Latch (new_promise w).2.
Proof.
  intros [Hfr Hop Hcl]. split; simpl; auto.
  - intros q f Hq. specialize (Hfr _ _ Hq). lia.
  - intros Hi. destruct (Hcl Hi) as (p & e & Hr & Hp & He & Hw).
    exists p, e. repeat split; auto.
    unfold owner_waits in *. simpl. rewrite lookup_insert_ne by lia. exact Hw.
Qed.

Lemma Latch_settle (q : pid) (o : outcome) (w : World) :
  Latch w -> (forall p, frames w !! q <> Some (EvtAwaitOwn p)) ->
  Latch (settle q o w).
Proof.
  intros [Hfr Hop Hcl] Hq. split; simpl; auto.
  - intros q' f H. apply lookup_delete_Some in H as [_ H]. eauto.
  - intros Hi. destruct (Hcl Hi) as (p & e & Hr & Hp & He & Hw).
    exists p, e. split; [assumption|]. split; [assumption|].
    assert (e <> q) as Hne by (intros ->; exact (Hq _ He)).
    split; [rewrite lookup_delete_ne by auto; assumption|].
    unfold owner_waits in *. simpl.
    destruct (decide (q = p)) as [->|Hqp].
    + rewrite lookup_insert_eq.
      destruct (promises w !! p) as [[ws|o']|]; [|assumption|destruct Hw].
      apply elem_of_app. right. apply Hw.
    + rewrite lookup_insert_ne by auto. rewrite lookup_delete_ne by auto.
      destruct (promises w !! p) as [[ws|o']|]; [assumption| |assumption].
      destruct (promises w !! q) as [[ws|o'']|]; try assumption.
      apply elem_of_app. left. assumption.
Qed.

Lemma Latch_await (q p' : pid) (f : frame) (w : World) :
  Latch w -> (q < next_pid w)%nat -> spare w q -> Latch (await q p' f w).
Proof.
  intros [Hfr Hop Hcl] Hq Hs. split; simpl; auto.
  - intros q' f' H. apply lookup_insert_Some in H as [[<- _]|[_ H]]; eauto.
  - intros Hi. destruct (Hcl Hi) as (p & e & Hr & Hp & He & Hw).
    exists p, e. split; [assumption|]. split; [assumption|].
    assert (e <> q) as Hne.
    { intros ->. exact (Hs _ He). }
    split; [rewrite lookup_insert_ne by auto; assumption|].
    unfold owner_waits in *. simpl.
    destruct (promises w !! p') as [[ws'|o']|] eqn:Hp'.
    + destruct (decide (p' = p)) as [->|Hpp].
      * rewrite lookup_insert_eq. rewrite Hp' in Hw.
        destruct Hw as [Hin [opts Hfp]]. split.
        -- apply elem_of_app. left. assumption.
        -- exists opts. rewrite lookup_insert_ne; [assumption|].
           intros ->. apply (Hs _ Hfp). reflexivity.
      * rewrite lookup_insert_ne by auto.
        destruct (promises w !! p) as [[ws|o]|]; [|assumption|assumption].
        destruct Hw as [Hin [opts Hfp]]. split; [assumption|].
        exists opts. rewrite lookup_insert_ne; [assumption|].
        intros ->. apply (Hs _ Hfp). reflexivity.
    + destruct (promises w !! p) as [[ws|o]|]; [| |assumption].
      * destruct Hw as [Hin [opts Hfp]]. split; [assumption|].
        exists opts. rewrite lookup_insert_ne; [assumption|].
        intros ->. apply (Hs _ Hfp). reflexivity.
      * apply elem_of_app. left. assumption.
    + destruct (promises w !! p) as [[ws|o]|]; [|assumption|assumption].
      destruct Hw as [Hin [opts Hfp]]. split; [assumption|].
      exists opts. rewrite lookup_insert_ne; [assumption|].
      intros ->. apply (Hs _ Hfp). reflexivity.
Qed.

Lemma Latch_await_fetch (q : pid) (f : frame) (c : FetchCall) (w : World) :
  Latch w -> (q < next_pid w)%nat -> spare w q -> Latch (await_fetch q f c w).
Proof.
  intros [Hfr Hop Hcl] Hq Hs. split; simpl; auto.
  - intros q' f' H. apply lookup_insert_Some in H as [[<- _]|[_ H]]; eauto.
  - intros Hi. destruct (Hcl Hi) as (p & e & Hr & Hp & He & Hw).
    exists p, e. split; [assumption|]. split; [assumption|].
    assert (e <> q) as Hne.
    { intros ->. exact (Hs _ He). }
    split; [rewrite lookup_insert_ne by auto; assumption|].
    unfold owner_waits in *. simpl.
    destruct (promises w !! p) as [[ws|o]|]; [|assumption|assumption].
    destruct Hw as [Hin [opts Hfp]]. split; [assumption|].
    exists opts. rewrite lookup_insert_ne; [assumption|].
    intros ->. apply (Hs _ Hfp). reflexivity.
Qed.

(** A fresh activation is spare, and stays so through a call. *)
Lemma spare_fresh (w : World) (q : pid) :
  Latch w -> (next_pid w <= q)%nat -> spare w q.
Proof.
  intros HG Hq f Hf. pose proof (latch_fresh w HG _ _ Hf). lia.
Qed.

Lemma spare_keeps (w w' : World) (q : pid) :
  keeps w w' -> (q < next_pid w)%nat -> spare w q -> spare w' q.
Proof.
  intros Hk Hq Hs f Hf. rewrite (keeps_frames _ _ Hk) in Hf by assumption.
  exact (Hs _ Hf).
Qed.

Lemma keeps_new_promise (w0 w : World) :
  keeps w0 w -> keeps w0 (new_promise w).2.
Proof. intros [Hn Hf]. split; simpl; auto. Qed.

Lemma keeps_settle (w0 w : World) (q : pid) (o : outcome) :
  (next_pid w0 <= q)%nat -> keeps w0 w -> keeps w0 (settle q o w).
Proof.
  intros Hq [Hn Hf]. split; simpl; auto.
  intros q' Hq'. rewrite lookup_delete_ne by lia. auto.
Qed.

Lemma keeps_await (w0 w : World) (q p : pid) (f : frame) :
  (next_pid w0 <= q)%nat -> keeps w0 w -> keeps w0 (await q p f w).
Proof.
  intros Hq [Hn Hf]. split; simpl; auto.
  intros q' Hq'. rewrite lookup_insert_ne by lia. auto.
Qed.

Lemma keeps_await_fetch (w0 w : World) (q : pid) (f : frame) (c : FetchCall) :
  (next_pid w0 <= q)%nat -> keeps w0 w -> keeps w0 (await_fetch q f c w).
Proof.
  intros Hq [Hn Hf]. split; simpl; auto.
  intros q' Hq'. rewrite lookup_insert_ne by lia. auto.
Qed.

(** The promise just created belongs to a spare activation. *)
Lemma spare_new_promise (w : World) :
  Latch w -> spare (new_promise w).2 (next_pid w).
Proof.
  intros HG f Hf. simpl in Hf. pose proof (latch_fresh w HG _ _ Hf). lia.
Qed.

(** A request that skips the check of the access token. *)
Lemma request_unchecked_Latch (endpoint : string) (opts : Options)
    (isRetry : bool) (w : World) :
  Latch w ->
  Latch (request_unchecked endpoint opts isRetry w).2 /\
  keeps w (request_unchecked endpoint opts isRetry w).2.
Proof.
  intros HG. unfold request_unchecked, request_send. open_new_promise w.
  cbn [fst snd]. split.
  - apply Latch_await_fetch;
      [apply Latch_new_promise; assumption | simpl; lia |
       apply spare_new_promise; assumption].
  - apply keeps_await_fetch; [lia|]. apply keeps_new_promise, keeps_refl.
Qed.

(** The turn that starts a renewal closes the latch. *)
Lemma start_renewal_Latch (v : string) (w : World) :
  Latch w -> Latch (start_renewal v w) /\ keeps w (start_renewal v w).
Proof.
  intros HG.
  set (e := next_pid w). set (p := S (next_pid w)).
  assert (frames (start_renewal v w) =
          <[e := EvtAwaitOwn p]>
            (<[p := ReqAwaitFetch "/auth/refresh" (post (RefreshBody v)) true]>
               (frames w))) as Hfr by reflexivity.
  assert (promises (start_renewal v w) =
          <[p := Pending [e]]>
            (<[p := Pending []]> (<[e := Pending []]> (promises w)))) as Hpr.
  { unfold start_renewal, request_unchecked, request_send. simpl.
    fold e p. rewrite lookup_insert_eq. reflexivity. }
  assert (next_pid (start_renewal v w) = S (S (next_pid w))) as Hnx by reflexivity.
  split; [split|split].
  - intros q f H. rewrite Hnx. rewrite Hfr in H.
    insert_cases H; [subst e; lia|].
    insert_cases H; [subst p; lia|].
    pose proof (latch_fresh w HG _ _ H). lia.
  - discriminate.
  - intros _. exists p, e. split; [reflexivity|].
    split; [rewrite Hnx; subst p; lia|]. split.
    + rewrite Hfr. apply lookup_insert_eq.
    + unfold owner_waits. rewrite Hpr, lookup_insert_eq. split.
      * apply list_elem_of_singleton. reflexivity.
      * exists (post (RefreshBody v)). rewrite Hfr.
        rewrite lookup_insert_ne by (subst e p; lia). apply lookup_insert_eq.
  - rewrite Hnx. lia.
  - intros q Hq. rewrite Hfr.
    rewrite !lookup_insert_ne by (subst e p; lia). reflexivity.
Qed.

Lemma ensureValidToken_Latch (w : World) :
  Latch w -> Latch (ensureValidToken w).2 /\ keeps w (ensureValidToken w).2.
Proof.
  intros HG.
  pose proof (Latch_new_promise w HG) as HG1.
  pose proof (spare_new_promise w HG) as Hs1.
  assert (Latch (settle (next_pid w) (Rejected no_refresh_token) (new_promise w).2) /\
          keeps w (settle (next_pid w) (Rejected no_refresh_token) (new_promise w).2))
    as Hfail.
  { split.
    - apply Latch_settle; [assumption|]. intros p Hp. exact (Hs1 _ Hp).
    - apply keeps_settle; [lia|]. apply keeps_new_promise, keeps_refl. }
  assert (forall p,
            Latch (await (next_pid w) p (EvtAwaitInFlight p) (new_promise w).2) /\
            keeps w (await (next_pid w) p (EvtAwaitInFlight p) (new_promise w).2))
    as Hjoin.
  { intros p. split.
    - apply Latch_await; [assumption | simpl; lia | assumption].
    - apply keeps_await; [lia|]. apply keeps_new_promise, keeps_refl. }
  unfold ensureValidToken.
  open_new_promise w.
  change (isRefreshing (new_promise w).2) with (isRefreshing w).
  change (refreshPromise (new_promise w).2) with (refreshPromise w).
  change (jar (new_promise w).2) with (jar w).
  change (now (new_promise w).2) with (now w).
  destruct (isRefreshing w) eqn:Hi;
    [destruct (refreshPromise w) as [p0|] eqn:Hr; [apply Hjoin|]|];
    (destruct (nonempty (getRefreshToken (jar w) (now w))) as [v|];
       [|exact Hfail];
     destruct (isRefreshTokenValid (jar w) (now w)); [|exact Hfail]);
    apply (start_renewal_Latch v w HG).
Qed.

Lemma request_Latch (endpoint : string) (opts : Options) (isRetry : bool)
    (w : World) :
  Latch w ->
  Latch (request endpoint opts isRetry w).2 /\
  keeps w (request endpoint opts isRetry w).2.
Proof.
  intros HG.
  pose proof (request_unchecked_Latch endpoint opts isRetry w HG) as Hun.
  unfold request. destruct (is_auth_endpoint endpoint); [exact Hun|].
  unfold request_unchecked in Hun. revert Hun.
  open_new_promise w. intros Hun.
  destruct (isTokenExpiredOrExpiringSoon _ _); [|exact Hun].
  pose proof (Latch_new_promise w HG) as HG1.
  destruct (ensureValidToken_Latch _ HG1) as [HG2 Hk2].
  destruct (ensureValidToken (new_promise w).2) as [e w2].
  cbn [fst snd] in *.
  pose proof (keeps_next _ _ Hk2) as Hn2.
  change (next_pid (new_promise w).2) with (S (next_pid w)) in Hn2.
  split.
  - apply Latch_await; [assumption | lia |].
    apply (spare_keeps (new_promise w).2); [assumption | simpl; lia |].
    apply spare_new_promise. assumption.
  - apply keeps_await; [lia|].
    apply (keeps_trans _ (new_promise w).2); [|assumption].
    apply keeps_new_promise, keeps_refl.
Qed.

(** A call that awaits a request: [login], [register], [refreshToken]. *)
Lemma awaiting_request_Latch (endpoint : string) (opts : Options)
    (isRetry : bool) (f : pid -> frame) (w : World) :
  Latch w ->
  Latch (let (r, w2) := request endpoint opts isRetry (new_promise w).2 in
        await (next_pid w) r (f r) w2).
Proof.
  intros HG.
  pose proof (Latch_new_promise w HG) as HG1.
  destruct (request_Latch endpoint opts isRetry _ HG1) as [HG2 Hk2].
  destruct (request endpoint opts isRetry (new_promise w).2) as [r w2].
  cbn [fst snd] in *.
  pose proof (keeps_next _ _ Hk2) as Hn2.
  change (next_pid (new_promise w).2) with (S (next_pid w)) in Hn2.
  apply Latch_await; [assumption | lia |].
  apply (spare_keeps (new_promise w).2); [assumption | simpl; lia |].
  apply spare_new_promise. assumption.
Qed.

Lemma call_auth_Latch (who : AuthCall) (endpoint payload : string) (w : World) :
  Latch w -> Latch (call_auth who endpoint payload w).2.
Proof.
  intros HG. unfold call_auth. open_new_promise w.
  pose proof (awaiting_request_Latch endpoint (post (DataBody payload)) false
                (StoreTokensAwait who) w HG) as H.
  destruct (request endpoint _ false (new_promise w).2) as [r w2]. exact H.
Qed.

Lemma refreshToken_Latch (w : World) : Latch w -> Latch (refreshToken w).2.
Proof.
  intros HG. unfold refreshToken. open_new_promise w.
  change (jar (new_promise w).2) with (jar w).
  change (now (new_promise w).2) with (now w).
  assert (Latch (settle (next_pid w) (Rejected no_refresh_token) (new_promise w).2))
    as Hfail.
  { apply Latch_settle; [apply Latch_new_promise; assumption|].
    intros p Hp. exact (spare_new_promise w HG _ Hp). }
  destruct (nonempty _) as [v|]; [|exact Hfail].
  destruct (isRefreshTokenValid _ _); [|exact Hfail].
  pose proof (awaiting_request_Latch "/auth/refresh" (post (RefreshBody v)) true
                (StoreTokensAwait RefreshToken) w HG) as H.
  destruct (request "/auth/refresh" _ true (new_promise w).2) as [r w2]. exact H.
Qed.

Lemma validateTokens_Latch (w : World) : Latch w -> Latch (validateTokens w).
Proof.
  intros HG. unfold validateTokens, health.
  destruct (_ && _); [apply request_Latch; assumption|].
  destruct (negb _); [|assumption].
  revert HG. apply Latch_same; reflexivity.
Qed.

Lemma deliver_Latch (q : pid) (res : FetchResult AuthData) (w w' : World) :
  Latch w -> deliver q res w = Some w' -> Latch w'.
Proof.
  intros HG. unfold deliver.
  destruct (frames w !! q) as [[| endpoint opts isRetry | | | | |]|] eqn:Hq;
    try discriminate.
  assert (forall p, frames w !! q <> Some (EvtAwaitOwn p)) as Hno
    by (intros p; rewrite Hq; discriminate).
  destruct (handle_response endpoint isRetry res) as [r|e|] eqn:Hh.
  - intros H. assert (w' = settle q (Fulfilled (VResponse r)) w) as ->
      by congruence.
    apply Latch_settle; assumption.
  - intros H. assert (w' = settle q (Rejected e) w) as -> by congruence.
    apply Latch_settle; assumption.
  - apply handle_response_RenewAndRetry in Hh as (Ha & _ & _).
    destruct (ensureValidToken_Latch w HG) as [HG2 Hk2].
    destruct (ensureValidToken w) as [e w2]. cbn [fst snd] in *.
    intros H.
    assert (w' = await q e (ReqAwaitRenewal endpoint opts e) w2) as ->
      by congruence.
    pose proof (latch_fresh w HG _ _ Hq) as Hlt.
    pose proof (keeps_next _ _ Hk2).
    apply Latch_await; [assumption | lia |].
    apply (spare_keeps w); [assumption | assumption |].
    intros f Hf. rewrite Hq in Hf.
    assert (f = ReqAwaitFetch endpoint opts isRetry) as -> by congruence.
    apply not_auth_endpoint_refresh. assumption.
Qed.

(** Taking a spare activation from the head of the queue. *)
Lemma Latch_dequeue (q : pid) (rest : list pid) (w : World) :
  Latch w -> microtasks w = q :: rest ->
  (forall p, frames w !! q <> Some (EvtAwaitOwn p)) ->
  Latch (set_microtasks rest w).
Proof.
  intros [Hfr Hop Hcl] Hm Hq. split; simpl; auto.
  intros Hi. destruct (Hcl Hi) as (p & e & Hr & Hp & He & Hw).
  exists p, e. repeat split; auto.
  unfold owner_waits in *. simpl.
  destruct (promises w !! p) as [[ws|o]|]; [assumption| |assumption].
  rewrite Hm in Hw. apply elem_of_cons in Hw as [->|Hw]; [|assumption].
  destruct (Hq _ He).
Qed.

Lemma resume_Latch (q : pid) (rest : list pid) (f : frame) (o : outcome)
    (w w' : World) :
  Latch w -> microtasks w = q :: rest -> frames w !! q = Some f ->
  resume q f o (set_microtasks rest w) = Some w' -> Latch w'.
Proof.
  intros HG Hm Hq.
  pose proof (latch_fresh w HG _ _ Hq) as Hlt.
  assert ((forall p, f <> EvtAwaitOwn p) -> Latch (set_microtasks rest w)) as HG1.
  { intros Hf. apply (Latch_dequeue q); [assumption | assumption |].
    intros p Hp. rewrite Hq in Hp. apply (Hf p). congruence. }
  assert ((forall p, f <> EvtAwaitOwn p) ->
          forall p, frames (set_microtasks rest w) !! q <> Some (EvtAwaitOwn p))
    as Hno.
  { intros Hf p Hp. simpl in Hp. rewrite Hq in Hp. apply (Hf p). congruence. }
  assert (forall w1, Latch w1 ->
            Latch (set_jar (removeAuthTokens (jar w1)) w1)) as Hjar.
  { intros w1. apply Latch_same; reflexivity. }
  destruct f as [endpoint opts isRetry e | | endpoint opts e | r | p | p | who r];
    cbn [resume].
  - specialize (HG1 ltac:(discriminate)). specialize (Hno ltac:(discriminate)).
    destruct o; intros H.
    + assert (w' = request_send q endpoint opts isRetry (set_microtasks rest w))
        as -> by congruence.
      apply Latch_await_fetch; [assumption | simpl; lia |].
      intros f Hf. simpl in Hf. rewrite Hq in Hf.
      assert (f = ReqAwaitPrecheck endpoint opts isRetry e) as -> by congruence.
      exact I.
    + assert (w' = settle q (Rejected session_expired)
                     (set_jar (removeAuthTokens (jar (set_microtasks rest w)))
                        (set_microtasks rest w))) as -> by congruence.
      apply Latch_settle; [apply Hjar; assumption | exact Hno].
  - discriminate.
  - specialize (HG1 ltac:(discriminate)). specialize (Hno ltac:(discriminate)).
    destruct o.
    + destruct (request_Latch endpoint opts true _ HG1) as [HG2 Hk2].
      destruct (request endpoint opts true (set_microtasks rest w)) as [r w2].
      cbn [fst snd] in *. intros H.
      assert (w' = await q r (ReqAwaitRetry r) w2) as -> by congruence.
      pose proof (keeps_next _ _ Hk2) as Hn2. simpl in Hn2.
      apply Latch_await; [assumption | lia |].
      apply (spare_keeps (set_microtasks rest w)); [assumption | simpl; lia |].
      intros f Hf. simpl in Hf. rewrite Hq in Hf.
      assert (f = ReqAwaitRenewal endpoint opts e) as -> by congruence.
      exact I.
    + intros H.
      assert (w' = settle q (Rejected session_expired)
                     (set_jar (removeAuthTokens (jar (set_microtasks rest w)))
                        (set_microtasks rest w))) as -> by congruence.
      apply Latch_settle; [apply Hjar; assumption | exact Hno].
  - specialize (HG1 ltac:(discriminate)). specialize (Hno ltac:(discriminate)).
    intros H. assert (w' = settle q o (set_microtasks rest w)) as ->
      by congruence.
    apply Latch_settle; assumption.
  - specialize (HG1 ltac:(discriminate)). specialize (Hno ltac:(discriminate)).
    destruct o; intros H;
      match type of H with
      | Some ?x = Some _ => assert (w' = x) as -> by congruence
      end;
      apply Latch_settle; assumption.
  - assert (forall o' w1, frames w1 = frames w -> next_pid w1 = next_pid w ->
              Latch (settle q o' (finally_reset w1))) as Hreset.
    { intros o' w1 Hf1 Hn1. apply (Latch_reset w); try reflexivity.
      intros q' f' H. simpl in H. rewrite Hf1 in H.
      apply lookup_delete_Some in H as [_ H].
      simpl. rewrite Hn1. exact (latch_fresh w HG _ _ H). }
    destruct o as [[|response]|e].
    + discriminate.
    + destruct (success response) as [[|]|], (data response) as [d|];
        intros H;
        match type of H with
        | Some ?x = Some _ => assert (w' = x) as -> by congruence
        end;
        apply Hreset; reflexivity.
    + intros H.
      assert (w' = settle q (Rejected e) (finally_reset (set_microtasks rest w)))
        as -> by congruence.
      apply Hreset; reflexivity.
  - specialize (HG1 ltac:(discriminate)). specialize (Hno ltac:(discriminate)).
    assert (forall d, Latch (store_tokens d (set_microtasks rest w))) as Hst.
    { intros d. revert HG1. apply Latch_same; reflexivity. }
    destruct o as [[|response]|e].
    + discriminate.
    + intros H.
      match type of H with
      | Some ?x = Some _ => assert (w' = x) as -> by congruence
      end.
      apply Latch_settle.
      * destruct (success response) as [[|]|], (data response) as [d|];
          auto.
      * intros p' Hp'.
        destruct (success response) as [[|]|], (data response) as [d|];
          exact (Hno _ Hp').
    + intros H.
      assert (w' = settle q (Rejected e) (set_microtasks rest w)) as ->
        by congruence.
      apply Latch_settle; assumption.
Qed.

Lemma task_Latch (ev : Event) (w w' : World) :
  Latch w -> task ev w = Some w' -> Latch w'.
Proof.
  intros HG. destruct ev; cbn [task].
  - destruct (is_auth_endpoint endpoint); [discriminate|].
    intros H. assert (w' = (request endpoint opts false w).2) as -> by congruence.
    apply request_Latch. assumption.
  - intros H. assert (w' = (login payload w).2) as -> by congruence.
    apply call_auth_Latch. assumption.
  - intros H. assert (w' = (register payload w).2) as -> by congruence.
    apply call_auth_Latch. assumption.
  - intros H. assert (w' = (refreshToken w).2) as -> by congruence.
    apply refreshToken_Latch. assumption.
  - apply deliver_Latch. assumption.
  - discriminate.
  - intros [= <-]. revert HG. apply Latch_same; reflexivity.
  - destruct (AuthStore.checkAuth _ _ _) as [b [st j]].
    intros [= <-]. revert HG. apply Latch_same; reflexivity.
  - destruct (AuthStore.clearAuth _ _) as [st j].
    intros [= <-]. revert HG. apply Latch_same; reflexivity.
  - intros [= <-]. revert HG. apply Latch_same; reflexivity.
  - intros H. assert (w' = validateTokens w) as -> by congruence.
    apply validateTokens_Latch. assumption.
Qed.

Lemma step_Latch (ev : Event) (w w' : World) :
  Latch w -> step w ev = Some w' -> Latch w'.
Proof.
  intros HG. unfold step.
  destruct (microtasks w) as [|q rest] eqn:Hm; [apply task_Latch; assumption|].
  destruct ev; try discriminate.
  destruct (frames w !! q) as [f|] eqn:Hq; [|discriminate].
  destruct (awaited f) as [p|]; [|discriminate].
  destruct (promises w !! p) as [[ws|o]|]; try discriminate.
  apply (resume_Latch q rest f o w w' HG Hm Hq).
Qed.

Lemma run_Latch (evs : list Event) (w w' : World) :
  Latch w -> run w evs = Some w' -> Latch w'.
Proof.
  revert w. induction evs as [|ev evs IH]; intros w HG; simpl.
  - intros [= <-]. assumption.
  - destruct (step w ev) as [w1|] eqn:Hs; [|discriminate].
    apply IH. eapply step_Latch; eassumption.
Qed.

(** X24.  The two fields of the client are set and reset together: in
    every run, between two turns [isRefreshing] is set exactly when
    [refreshPromise] is not null.  So the test of both in
    [ensureValidToken] never finds one without the other. *)
Theorem client_fields_agree (jar0 : gmap string cookie) (now0 : Z)
    (store0 : AuthStore.AuthState) (evs : list Event) (w : World)
    (Hrun : run (initial jar0 now0 store0) evs = Some w) :
  isRefreshing w = true <-> refreshPromise w <> None.
Proof.
  pose proof (run_Latch evs _ _ (Latch_initial jar0 now0 store0) Hrun) as HG.
  split.
  - intros Hi. destruct (latch_closed w HG Hi) as (p & e & Hr & _).
    congruence.
  - intros Hr. destruct (isRefreshing w) eqn:Hi; [reflexivity|].
    destruct Hr. exact (latch_open w HG Hi).
Qed.

(** X25.  The latch is never left closed.  In every run, the manual
    renewal included, whenever the microtask queue is empty and
    [isRefreshing] is set, the renewal request that [refreshPromise]
    names is still awaiting its answer, and the activation of
    [ensureValidToken] that resets the two fields is suspended on it.
    So [isRefreshing] is set only until the answer to the renewal
    request, whatever it is, has been handled. *)
Theorem latch_is_never_left_closed (jar0 : gmap string cookie) (now0 : Z)
    (store0 : AuthStore.AuthState) (evs : list Event) (w : World)
    (Hrun : run (initial jar0 now0 store0) evs = Some w)
    (Hquiet : microtasks w = [])
    (Hclosed : isRefreshing w = true) :
  exists p e opts,
    refreshPromise w = Some p /\
    frames w !! p = Some (ReqAwaitFetch "/auth/refresh" opts true) /\
    frames w !! e = Some (EvtAwaitOwn p) /\
    p ∈ renewals_in_flight w.
Proof.
  pose proof (run_Latch evs _ _ (Latch_initial jar0 now0 store0) Hrun) as HG.
  destruct (latch_closed w HG Hclosed) as (p & e & Hr & _ & He & Hw).
  unfold owner_waits in Hw. rewrite Hquiet in Hw.
  destruct (promises w !! p) as [[ws|o]|]; [| |destruct Hw].
  - destruct Hw as [_ [opts Hp]]. exists p, e, opts.
    repeat split; try assumption.
    apply renewals_in_flight_spec. eauto.
  - apply elem_of_nil in Hw. destruct Hw.
Qed.

End LatchFacts.

Lemma client_fields_agree_witness :
  exists w,
    ApiClient.run (rt := Host.runtime) Scenario.w0
      [ApiClient.CallRefreshToken; ApiClient.Call "/devices" ApiClient.no_options]
    = Some w /\
    (ApiClient.isRefreshing w = true <-> ApiClient.refreshPromise w <> None).
Proof.
  assert (exists w,
            ApiClient.run (rt := Host.runtime) Scenario.w0
              [ApiClient.CallRefreshToken;
               ApiClient.Call "/devices" ApiClient.no_options] = Some w)
    as [w Hrun] by (eexists; vm_compute; reflexivity).
  exists w. split; [exact Hrun|].
  exact (client_fields_agree (rt := Host.runtime) Scenario.jar0 1000000
           AuthStore.initial _ w Hrun).
Defined.

Lemma latch_is_never_left_closed_witness :
  exists w p,
    ApiClient.run (rt := Host.runtime) Scenario.w0 Scenario.two_callers = Some w /\
    ApiClient.refreshPromise w = Some p /\
    p ∈ renewals_in_flight w.
Proof.
  assert (exists w,
            ApiClient.run (rt := Host.runtime) Scenario.w0 Scenario.two_callers
            = Some w /\
            ApiClient.microtasks w = [] /\ ApiClient.isRefreshing w = true)
    as (w & Hrun & Hquiet & Hclosed).
  { eexists. split; [vm_compute; reflexivity|].
    split; vm_compute; reflexivity. }
  destruct (latch_is_never_left_closed (rt := Host.runtime) Scenario.jar0 1000000
              AuthStore.initial Scenario.two_callers w Hrun Hquiet Hclosed)
    as (p & e & opts & Hr & _ & _ & Hin).
  exists w, p. repeat split; assumption.
Defined.

(** ** The guard and the login page *)

Section LoginRoundTrip.
Import Middleware LoginPage.


End LoginRoundTrip.

